(** * The CSV-to-array processing pipeline of [parsing/app.py]

    A shallow embedding of the five chained handlers (loader, cleaner,
    feature selector, splitter, saver) and of [DataProcessingPipeline],
    together with the properties of the pipeline's staged transformation
    contract.

    The pandas and numpy calls the handlers make are modelled by their
    documented behaviour on a row-major table; the handlers themselves are
    transcribed statement by statement.  Console output is left out. *)

From Stdlib Require Import ZArith.
From stdpp Require Import gmap strings list fin_maps.

Set Default Proof Using "Type".

Open Scope string_scope.
Open Scope list_scope.
Open Scope nat_scope.

(** ** Tables *)

(** A cell is a number, a text, or the missing-marker ([NaN]).  A number
    is a whole int64 value or a double with a whole value; the handlers
    compare cells, and the only place a number can change is the cast of
    [values].  Two missing-markers count as equal when rows are compared,
    as they do for [drop_duplicates]. *)
Inductive cell :=
  | NaN
  | Num (z : Z)
  | Text (s : string).

#[global] Instance cell_eq_dec : EqDecision cell.
Proof. solve_decision. Defined.

Abbreviation row := (list cell).

(** A [DataFrame] has a header of column labels and a list of rows.  The
    header is kept apart from the rows, so a frame with no rows still has
    columns and a frame with no columns still has a length. *)
Record DataFrame := mkFrame {
  columns : list string;
  rows : list row
}.

#[global] Instance DataFrame_eq_dec : EqDecision DataFrame.
Proof. solve_decision. Defined.

(** The invariant of every frame [pd.read_csv] returns: labels are pairwise
    distinct (repeated header fields are renamed on reading) and every row
    has one cell per column. *)
Definition wf_frame (t : DataFrame) : Prop :=
  NoDup (columns t) ∧ Forall (λ r : row, length r = length (columns t)) (rows t).

#[global] Instance wf_frame_dec t : Decision (wf_frame t).
Proof. unfold wf_frame. apply _. Defined.

(** A two-dimensional array: its shape and its rows. *)
Record ndarray := mkArray {
  nd_shape : nat * nat;
  nd_data : list row
}.

#[global] Instance ndarray_eq_dec : EqDecision ndarray.
Proof. solve_decision. Defined.

(** ** The pandas operations the handlers call *)

Module pd.

(** [len(data)] *)
Definition len (t : DataFrame) : nat := length (rows t).

(** [data.shape] *)
Definition shape (t : DataFrame) : nat * nat :=
  (length (rows t), length (columns t)).

(** The types an array of cells can have: whole numbers, doubles (the
    type of every column that holds a missing value beside its numbers),
    and Python objects (the type of every column that holds a text). *)
Inductive dtype := int64 | float64 | object.

Definition is_text (c : cell) : bool :=
  match c with Text _ => true | _ => false end.

Definition is_nan (c : cell) : bool :=
  match c with NaN => true | _ => false end.

(** The one type numpy finds for the cells of a frame: [object] as soon as
    one column is of that type, else [float64] as soon as one column is,
    else [int64]. *)
Definition common_dtype (l : list row) : dtype :=
  if existsb (existsb is_text) l then object
  else if existsb (existsb is_nan) l then float64
  else int64.

(** The double nearest to a whole number, ties going to the even
    significand of 53 bits.  (The numbers of a frame are int64 values or
    doubles, so none is large enough to overflow.) *)
Definition to_float64 (z : Z) : Z :=
  let a := Z.abs z in
  let e := (Z.log2 a - 52)%Z in
  if (e <=? 0)%Z then z
  else
    let q := Z.shiftr a e in
    let r := Z.land a (Z.ones e) in
    let half := Z.shiftl 1 (e - 1) in
    let q' := if (half <? r)%Z || ((r =? half)%Z && Z.odd q)
              then (q + 1)%Z else q in
    (Z.sgn z * Z.shiftl q' e)%Z.

(** [array.astype(dt)] on one cell: only a whole number that becomes a
    double can change. *)
Definition astype (dt : dtype) (c : cell) : cell :=
  match dt, c with
  | float64, Num z => Num (to_float64 z)
  | _, _ => c
  end.

(** [data.values]: the cells of the frame, all cast to their common
    type. *)
Definition values (t : DataFrame) : ndarray :=
  {| nd_shape := shape t;
     nd_data := (λ r : row, astype (common_dtype (rows t)) <$> r) <$> rows t |}.



(** A row all of whose cells are missing. *)
Definition all_missing (r : row) : Prop := Forall (λ c, c = NaN) r.

#[global] Instance all_missing_dec r : Decision (all_missing r).
Proof. unfold all_missing. apply _. Defined.

(** [data.dropna(how='all')] *)
Definition dropna_all (t : DataFrame) : DataFrame :=
  {| columns := columns t;
     rows := filter (λ r, ¬ all_missing r) (rows t) |}.

(** One left-to-right pass that remembers the rows already met. *)
Fixpoint unseen (seen : list row) (l : list row) : list row :=
  match l with
  | [] => []
  | r :: l' =>
      if decide (r ∈ seen) then unseen seen l'
      else r :: unseen (r :: seen) l'
  end.

(** [data.drop_duplicates()], with its default [keep='first'].  (pandas
    returns a frame without columns as it is; such a frame comes out of
    [dropna_all] without rows, so for the cleaner the two agree.) *)
Definition drop_duplicates (t : DataFrame) : DataFrame :=
  {| columns := columns t; rows := unseen [] (rows t) |}.

(** Position of a label in the header. *)
Fixpoint get_loc (c : string) (cols : list string) : nat :=
  match cols with
  | [] => 0
  | c' :: cols' => if decide (c' = c) then 0 else S (get_loc c cols')
  end.

(** The values of the column at a position. *)
Definition icol (i : nat) (t : DataFrame) : list cell :=
  (λ r : row, default NaN (r !! i)) <$> rows t.

(** [data[col]] for a label of the header.  Labels are pairwise distinct
    in the frames of a run ([wf_frame]), so a label names one column. *)
Definition getitem (t : DataFrame) (c : string) : list cell :=
  icol (get_loc c (columns t)) t.

(** [series.nunique()]: the number of distinct values, missing values
    not counted. *)
Definition nunique (s : list cell) : nat :=
  length (remove_dups (filter (λ c, c ≠ NaN) s)).

(** Keep the entries of a list at the positions a mask marks. *)
Fixpoint take_mask {A} (mask : list bool) (l : list A) : list A :=
  match mask, l with
  | b :: mask', x :: l' =>
      if b then x :: take_mask mask' l' else take_mask mask' l'
  | _, _ => []
  end.

(** [data.drop(columns=labels)] for labels of the header. *)
Definition drop (t : DataFrame) (labels : list string) : DataFrame :=
  let mask := (λ c, bool_decide (c ∉ labels)) <$> columns t in
  {| columns := take_mask mask (columns t);
     rows := take_mask mask <$> rows t |}.

End pd.

(** ** The metadata bag, files and control effects *)

(** What the handlers store in the context dictionary: a path or label,
    a shape, the list of surviving labels, the feature matrix and the
    target vector. *)
Inductive value :=
  | VStr (s : string)
  | VShape (sh : nat * nat)
  | VLabels (l : list string)
  | VMatrix (a : ndarray)
  | VVector (v : list cell).

#[global] Instance value_eq_dec : EqDecision value.
Proof. solve_decision. Defined.

(** The kind of a stored value. *)
Inductive kind := KStr | KShape | KLabels | KMatrix | KVector.

Definition kind_of (v : value) : kind :=
  match v with
  | VStr _ => KStr
  | VShape _ => KShape
  | VLabels _ => KLabels
  | VMatrix _ => KMatrix
  | VVector _ => KVector
  end.

Inductive exn :=
  | ValueError
  | KeyError
  | TypeError
  | AttributeError
  | IndexError
  | OSError.

(** How a call ends: it returns, it raises an [Exception], or it leaves
    through [sys.exit] ([SystemExit] is not an [Exception], so no
    [except Exception] clause stops it). *)
Inductive outcome (A : Type) :=
  | Ok (a : A)
  | Raise (e : exn)
  | Exit (code : Z).

Arguments Ok {A} a.
Arguments Raise {A} e.
Arguments Exit {A} code.

(** The mutable world of one run: the shared context dictionary and the
    files written so far. *)
Record state := mkState {
  context : gmap string value;
  files : gmap string value
}.

Definition M (A : Type) : Type := state → outcome A * state.

Definition ret {A} (a : A) : M A := λ st, (Ok a, st).

Definition bind {A B} (m : M A) (k : A → M B) : M B :=
  λ st,
    match m st with
    | (Ok a, st') => k a st'
    | (Raise e, st') => (Raise e, st')
    | (Exit c, st') => (Exit c, st')
    end.

Definition raise {A} (e : exn) : M A := λ st, (Raise e, st).

(** [sys.exit(code)] *)
Definition sys_exit {A} (code : Z) : M A := λ st, (Exit code, st).

(** [try: m  except Exception as e: h e] *)
Definition try_except {A} (m : M A) (h : exn → M A) : M A :=
  λ st,
    match m st with
    | (Raise e, st') => h e st'
    | r => r
    end.

Declare Scope py_scope.
Delimit Scope py_scope with py.
Notation "'let*' x ':=' m 'in' k" := (bind m (λ x, k))
  (at level 10, x name, m at level 100, k at level 200) : py_scope.
Notation "m ';;' k" := (bind m (λ _, k))
  (at level 100, k at level 200, right associativity) : py_scope.

(** [context[k]] *)
Definition ctx_getitem (k : string) : M value :=
  λ st, match context st !! k with
        | Some v => (Ok v, st)
        | None => (Raise KeyError, st)
        end.

(** [context.get(k, d)] *)
Definition ctx_get (k : string) (d : value) : M value :=
  λ st, (Ok (default d (context st !! k)), st).

(** The state after [context[k] = v]. *)
Definition store (k : string) (v : value) (st : state) : state :=
  {| context := <[k := v]> (context st); files := files st |}.

(** [context[k] = v] *)
Definition ctx_setitem (k : string) (v : value) : M unit :=
  λ st, (Ok tt, store k v st).

(** The state after a file was written. *)
Definition written (path : string) (v : value) (st : state) : state :=
  {| context := context st; files := <[path := v]> (files st) |}.

(** The status the process ends with: 0 after a normal return, the code
    given to [sys.exit], and 1 after an exception nobody caught. *)
Definition exit_status {A} (o : outcome A) : Z :=
  match o with
  | Ok _ => 0
  | Raise _ => 1
  | Exit c => c
  end.

Create HintDb frames.

(** ** The handlers *)

Section Pipeline.

(** The outside world the run talks to: what [pd.read_csv] makes of a
    path ([None] when the file cannot be read or parsed), whether
    [np.save] succeeds in writing a value to a path given the files
    already there, and how an f-string renders a value that is not a
    string. *)
Variable read_csv : string → option DataFrame.
Variable save_ok : gmap string value → string → value → bool.
Variable repr : value → string.

Open Scope py_scope.

(** [pd.read_csv(file_path, low_memory=False)] *)
Definition pd_read_csv (file_path : value) : M DataFrame :=
  match file_path with
  | VStr p =>
      match read_csv p with
      | Some t => ret t
      | None => raise OSError
      end
  | _ => raise ValueError
  end.

(** [f"{v}"] *)
Definition format (v : value) : string :=
  match v with
  | VStr s => s
  | _ => repr v
  end.

(** [np.save(path, v)]: the file holds the value afterwards, or the call
    raises and no file is touched. *)
Definition np_save (path : string) (v : value) : M unit :=
  λ st,
    if save_ok (files st) path v
    then (Ok tt, written path v st)
    else (Raise OSError, st).

Definition handler : Type := option DataFrame → M (option DataFrame).

(** [DataHandler.handle]: pass the table on to the next handler, if one
    was set. *)
Definition DataHandler_handle (next_handler : option handler) : handler :=
  λ data,
    match next_handler with
    | Some h => h data
    | None => ret data
    end.

Definition DataLoaderHandler_handle (next_handler : option handler) : handler :=
  λ data,
    let* data :=
      match data with
      | None =>
          try_except
            (let* file_path := ctx_getitem "file_path" in
             let* data := pd_read_csv file_path in
             ctx_setitem "original_shape" (VShape (pd.shape data)) ;;
             ret (Some data))
            (λ _, sys_exit 1)
      | Some _ => ret data
      end in
    DataHandler_handle next_handler data.

(** The two removals of [CleanDataHandler.handle]. *)
Definition clean (data : DataFrame) : DataFrame :=
  let data := pd.dropna_all data in
  let data := pd.drop_duplicates data in
  data.

Definition CleanDataHandler_handle (next_handler : option handler) : handler :=
  λ data,
    match data with
    | None => raise TypeError
    | Some data =>
        let data := clean data in
        ctx_setitem "cleaned_shape" (VShape (pd.shape data)) ;;
        DataHandler_handle next_handler (Some data)
    end.

(** The loop of [FeatureSelectionHandler.handle] that collects the labels
    of the columns whose distinct-value count equals the row count. *)
Definition cols_to_drop (data : DataFrame) : list string :=
  filter (λ col, pd.nunique (pd.getitem data col) = pd.len data)
         (columns data).

Definition select_features (data : DataFrame) : DataFrame :=
  match cols_to_drop data with
  | [] => data
  | (_ :: _) as cols => pd.drop data cols
  end.

Definition FeatureSelectionHandler_handle (next_handler : option handler) : handler :=
  λ data,
    match data with
    | None => raise AttributeError
    | Some data =>
        let data := select_features data in
        ctx_setitem "selected_features" (VLabels (columns data)) ;;
        DataHandler_handle next_handler (Some data)
    end.

Definition SplitDataHandler_handle (next_handler : option handler) : handler :=
  λ data,
    match data with
    | None => raise AttributeError
    | Some data =>
        if decide (length (columns data) < 2) then raise ValueError
        else
          match last (columns data) with
          | None => raise IndexError
          | Some target_col =>
              let y := pd.getitem data target_col in
              let X := pd.values (pd.drop data [target_col]) in
              ctx_setitem "X_data" (VMatrix X) ;;
              ctx_setitem "y_data" (VVector y) ;;
              ctx_setitem "target_column" (VStr target_col) ;;
              DataHandler_handle next_handler (Some data)
          end
    end.

Definition SaveNumpyHandler_handle (next_handler : option handler) : handler :=
  λ data,
    let* output_dir := ctx_get "output_dir" (VStr ".") in
    try_except
      (let* X := ctx_getitem "X_data" in
       np_save (format output_dir +:+ "/x_data.npy") X ;;
       let* y := ctx_getitem "y_data" in
       np_save (format output_dir +:+ "/y_data.npy") y)
      (λ _, sys_exit 1) ;;
    DataHandler_handle next_handler data.

(** ** The pipeline *)

Inductive stage := Loader | Cleaner | Selector | Splitter | Saver.

Definition stage_handle (s : stage) : option handler → handler :=
  match s with
  | Loader => DataLoaderHandler_handle
  | Cleaner => CleanDataHandler_handle
  | Selector => FeatureSelectionHandler_handle
  | Splitter => SplitDataHandler_handle
  | Saver => SaveNumpyHandler_handle
  end.

(** The chain [set_next] builds: each handler holds the handler after
    it, the last one holds none. *)
Fixpoint chain (stages : list stage) : option handler :=
  match stages with
  | [] => None
  | s :: rest => Some (stage_handle s (chain rest))
  end.

(** [DataProcessingPipeline.__init__]: [self.loader] with the other four
    handlers linked behind it. *)
Definition pipeline_stages : list stage :=
  [Loader; Cleaner; Selector; Splitter; Saver].

Definition loader : handler :=
  stage_handle Loader (chain [Cleaner; Selector; Splitter; Saver]).

(** The dictionary [process] creates. *)
Definition initial_context (file_path output_dir : string) : gmap string value :=
  <["output_dir" := VStr output_dir]> (<["file_path" := VStr file_path]> ∅).

(** [DataProcessingPipeline.process], started with the files [fs]. *)
Definition process (file_path output_dir : string) (fs : gmap string value)
  : outcome unit * state :=
  try_except
    (loader None ;; ret tt)
    (λ _, sys_exit 1)
    {| context := initial_context file_path output_dir; files := fs |}.

(** The keys a stage writes into the context. *)
Definition stage_keys (s : stage) : list string :=
  match s with
  | Loader => ["original_shape"]
  | Cleaner => ["cleaned_shape"]
  | Selector => ["selected_features"]
  | Splitter => ["X_data"; "y_data"; "target_column"]
  | Saver => []
  end.

(** The two output paths of the saver for the output directory stored
    in a context. *)
Definition x_path (ctx : gmap string value) : string :=
  format (default (VStr ".") (ctx !! "output_dir")) +:+ "/x_data.npy".

Definition y_path (ctx : gmap string value) : string :=
  format (default (VStr ".") (ctx !! "output_dir")) +:+ "/y_data.npy".

(** ** The cleaner's contract in the specification's words *)

(** A row is a duplicate when it matches a row met earlier in the table;
    the rows that are not duplicates stay, in their order. *)
Definition first_occurrences (l : list row) : list row :=
  omap id (imap (λ i r, if decide (r ∈ take i l) then None else Some r) l).

(** First every row whose cells are all missing goes, then the duplicates
    among the rows that are left. *)
Definition spec_clean_rows (l : list row) : list row :=
  first_occurrences (filter (λ r, ¬ Forall (λ c, c = NaN) r) l).

(** A sequence holds a repeated value: two different positions hold the
    same value. *)
Definition repeated (s : list cell) : Prop :=
  ∃ i j v, i ≠ j ∧ s !! i = Some v ∧ s !! j = Some v.


(** ** Notions used to state the context discipline *)

(** Between two states no key of the context was removed, and only keys
    of [K] may have been written. *)
Definition keeps (K : list string) (st st' : state) : Prop :=
  dom (context st) ⊆ dom (context st') ∧
  ∀ k, k ∉ K → context st' !! k = context st !! k.

(** A computation that, however it ends, [keeps] the context up to [K]. *)
Definition frames {A} (K : list string) (m : M A) : Prop :=
  ∀ st, keeps K st (m st).2.

(** The keys written by a list of stages. *)
Definition stages_keys (stages : list stage) : list string :=
  concat (stage_keys <$> stages).

(** The state in which a table read from [file_path] reaches the
    splitter: the loader, the cleaner and the selector have each left
    their entry in the context, and no file was written. *)
Definition before_split (file_path output_dir : string)
    (fs : gmap string value) (t : DataFrame) : state :=
  store "selected_features" (VLabels (columns (select_features (clean t))))
    (store "cleaned_shape" (VShape (pd.shape (clean t)))
      (store "original_shape" (VShape (pd.shape t))
        {| context := initial_context file_path output_dir; files := fs |})).

(** The feature matrix and the target vector of a run on the table [t]
    whose selected columns end with [target]. *)
Definition run_X (t : DataFrame) (target : string) : value :=
  VMatrix (pd.values (pd.drop (select_features (clean t)) [target])).

Definition run_y (t : DataFrame) (target : string) : value :=
  VVector (pd.getitem (select_features (clean t)) target).

(** The state in which the saver starts after a successful split on the
    target column [target]. *)
Definition before_save (file_path output_dir : string)
    (fs : gmap string value) (t : DataFrame) (target : string) : state :=
  store "target_column" (VStr target)
    (store "y_data" (run_y t target)
      (store "X_data" (run_X t target)
        (before_split file_path output_dir fs t))).

(** The state a run ends in when both files were written. *)
Definition after_save (file_path output_dir : string)
    (fs : gmap string value) (t : DataFrame) (target : string) : state :=
  written (output_dir +:+ "/y_data.npy") (run_y t target)
    (written (output_dir +:+ "/x_data.npy") (run_X t target)
      (before_save file_path output_dir fs t target)).

(** [main], once the command line is parsed:
    [pipeline.process(args.file_path)], with the default output directory
    of [process]. *)
Definition main (file_path : string) (fs : gmap string value)
  : outcome unit * state :=
  process file_path "." fs.

(** A column is identifier-like: no value repeats and none is missing. *)
Definition all_unique (s : list cell) : Prop := NoDup s ∧ NaN ∉ s.

(** ** Sample inputs *)

(** Five rows and three columns: identifiers, a column with a repeated
    value, and a target column with a repeated and a missing value. *)
Definition sample_frame : DataFrame :=
  mkFrame ["A"; "B"; "C"]
    [ [Num 1; Text "x"; Num 10];
      [Num 2; Text "x"; Num 20];
      [Num 3; Text "y"; Num 10];
      [Num 4; Text "z"; NaN];
      [Num 5; Text "w"; Num 30] ].

(** Two columns, one of them identifier-like. *)
Definition narrow_frame : DataFrame :=
  mkFrame ["A"; "B"] [ [Num 1; Text "x"]; [Num 2; Text "x"] ].

(** A table with an empty row and repeated rows. *)
Definition dirty_frame : DataFrame :=
  mkFrame ["A"; "B"]
    [ [Num 1; NaN]; [NaN; NaN]; [Num 2; Text "x"]; [Num 1; NaN];
      [NaN; NaN]; [Num 2; Text "x"]; [Num 3; Text "x"] ].

Definition sample_read_csv (p : string) : option DataFrame :=
  if decide (p = "data.csv") then Some sample_frame
  else if decide (p = "narrow.csv") then Some narrow_frame
  else None.

(** Every write succeeds but the one of the target vector. *)
Definition sample_save_ok (fs : gmap string value) (p : string) (v : value) : bool :=
  bool_decide (p ≠ "./y_data.npy").

Definition sample_repr (v : value) : string := "?".

(** A column of whole numbers too large for a double beside a column with
    a missing value, and a target column. *)
Definition big_frame : DataFrame :=
  mkFrame ["A"; "B"; "C"]
    [ [Num 9007199254740993; Num 1; Num 0];
      [Num 9007199254740993; NaN; Num 0] ].

(** A single complete row. *)
Definition one_row_frame : DataFrame :=
  mkFrame ["A"; "B"; "C"] [ [Num 1; Text "x"; Num 2] ].

Definition one_row_read_csv (p : string) : option DataFrame :=
  Some one_row_frame.

(** A table whose last column is identifier-like. *)
Definition unique_target_frame : DataFrame :=
  mkFrame ["A"; "B"; "C"]
    [ [Text "a"; Num 1; Num 10]; [Text "a"; Num 1; Num 20] ].

(** Every write succeeds. *)
Definition always_save_ok (fs : gmap string value) (p : string) (v : value) : bool :=
  true.

(** ** Facts about the table operations *)

(** Drop the outside world from a goal that does not speak about it. *)
Ltac forget_world :=
  try clear read_csv; try clear save_ok; try clear repr.

Ltac ptauto := forget_world; tauto.

Lemma filter_Forall_id {A} (P : A → Prop) `{!∀ x, Decision (P x)} (l : list A) :
  Forall P l → filter P l = l.
Proof.
  induction 1 as [|x l Hx _ IH]; [done|].
  by rewrite filter_cons_True, IH.
Qed.

Lemma filter_Forall_nil {A} (P : A → Prop) `{!∀ x, Decision (P x)} (l : list A) :
  Forall (λ x, ¬ P x) l → filter P l = [].
Proof.
  induction 1 as [|x l Hx _ IH]; [done|].
  by rewrite filter_cons_False.
Qed.

Lemma unseen_sublist seen l : pd.unseen seen l `sublist_of` l.
Proof.
  revert seen. induction l as [|r l IH]; intros seen; simpl; [done|].
  case_decide; [by apply sublist_cons | by apply sublist_skip].
Qed.

Lemma elem_of_unseen seen l r :
  r ∈ pd.unseen seen l ↔ r ∈ l ∧ r ∉ seen.
Proof.
  revert seen. induction l as [|x l IH]; intros seen; simpl.
  - split; [by intros ?%elem_of_nil | by intros [?%elem_of_nil _]].
  - case_decide as Hx.
    + rewrite IH, elem_of_cons. split; [ptauto|].
      intros [[->|?] ?]; ptauto.
    + rewrite !elem_of_cons, IH, elem_of_cons. split.
      * intros [->|[? ?]]; ptauto.
      * intros [[->|?] ?]; [ptauto|].
        destruct (decide (r = x)); ptauto.
Qed.

Lemma unseen_NoDup seen l : NoDup (pd.unseen seen l).
Proof.
  revert seen. induction l as [|x l IH]; intros seen; simpl.
  - constructor.
  - case_decide; [done|]. constructor; [|done].
    rewrite elem_of_unseen, elem_of_cons. ptauto.
Qed.

Lemma unseen_fixed seen l :
  NoDup l → (∀ r, r ∈ l → r ∉ seen) → pd.unseen seen l = l.
Proof.
  revert seen. induction l as [|x l IH]; intros seen Hnd Hseen; simpl; [done|].
  apply NoDup_cons in Hnd as [Hx Hnd].
  rewrite decide_False by (apply Hseen; left).
  f_equal. apply IH; [done|].
  intros r Hr [->|?]%elem_of_cons; [done|].
  by apply (Hseen r); [right|].
Qed.

Lemma unseen_snoc seen l x :
  pd.unseen seen (l ++ [x]) =
    if decide (x ∈ seen ∨ x ∈ l) then pd.unseen seen l
    else pd.unseen seen l ++ [x].
Proof.
  revert seen. induction l as [|y l IH]; intros seen; simpl.
  - destruct (decide (x ∈ seen)).
    + by rewrite decide_True by ptauto.
    + rewrite decide_False; [done|]. intros [?|?%elem_of_nil]; ptauto.
  - destruct (decide (y ∈ seen)) as [Hy|Hy]; rewrite IH;
      destruct (decide (x ∈ _ ∨ x ∈ l)) as [H1|H1],
               (decide (x ∈ seen ∨ x ∈ y :: l)) as [H2|H2];
      try done; exfalso; clear IH; set_unfold; forget_world; intuition congruence.
Qed.

Lemma first_occurrences_snoc l x :
  first_occurrences (l ++ [x]) =
    if decide (x ∈ l) then first_occurrences l
    else first_occurrences l ++ [x].
Proof.
  unfold first_occurrences. rewrite imap_app, omap_app. simpl.
  rewrite Nat.add_0_r, take_app_length.
  assert (imap (λ i r, if decide (r ∈ take i (l ++ [x])) then None else Some r) l
          = imap (λ i r, if decide (r ∈ take i l) then None else Some r) l) as ->.
  { apply imap_ext. intros i r Hi. simpl.
    apply lookup_lt_Some in Hi. by rewrite take_app_le by lia. }
  case_decide; simpl; [by rewrite app_nil_r | done].
Qed.

Lemma unseen_first_occurrences l : pd.unseen [] l = first_occurrences l.
Proof.
  induction l as [|x l IH] using rev_ind; [done|].
  rewrite unseen_snoc, first_occurrences_snoc, IH.
  destruct (decide (x ∈ l)).
  - by rewrite decide_True by ptauto.
  - rewrite decide_False; [done|]. intros [?%elem_of_nil|?]; ptauto.
Qed.

Lemma clean_rows t :
  rows (clean t) = pd.unseen [] (filter (λ r, ¬ pd.all_missing r) (rows t)).
Proof. done. Qed.

Lemma clean_columns t : columns (clean t) = columns t.
Proof. done. Qed.

Lemma clean_idempotent t : clean (clean t) = clean t.
Proof.
  destruct t as [cols rs]. unfold clean, pd.drop_duplicates, pd.dropna_all. simpl.
  f_equal.
  set (l := filter (λ r, ¬ pd.all_missing r) rs).
  assert (filter (λ r, ¬ pd.all_missing r) (pd.unseen [] l) = pd.unseen [] l) as ->.
  { apply filter_Forall_id, Forall_forall. intros r [Hr _]%elem_of_unseen.
    by apply list_elem_of_filter in Hr as [? _]. }
  apply unseen_fixed; [apply unseen_NoDup|]. intros r _. apply not_elem_of_nil.
Qed.

Lemma clean_length t : pd.len (clean t) ≤ pd.len t.
Proof.
  unfold pd.len. rewrite clean_rows.
  etrans; [apply sublist_length, unseen_sublist|]. apply length_filter.
Qed.

Lemma filter_ext_elem {A} (P Q : A → Prop)
    `{!∀ x, Decision (P x)} `{!∀ x, Decision (Q x)} (l : list A) :
  (∀ x, x ∈ l → P x ↔ Q x) → filter P l = filter Q l.
Proof.
  induction l as [|x l IH]; intros HPQ; [done|].
  assert (filter P l = filter Q l) as Hl.
  { apply IH. intros y Hy. apply HPQ. by right. }
  destruct (decide (P x)) as [HP|HP].
  - rewrite !filter_cons_True, Hl; [done| |done]. apply HPQ; [left|done].
  - rewrite !filter_cons_False, Hl; [done| |done].
    intros HQ. apply HP, HPQ; [left|done].
Qed.

Lemma take_mask_filter {A} (P : A → Prop) `{!∀ x, Decision (P x)} (l : list A) :
  pd.take_mask ((λ x, bool_decide (P x)) <$> l) l = filter P l.
Proof.
  induction l as [|x l IH]; [done|]. rewrite fmap_cons. cbn [pd.take_mask].
  destruct (decide (P x)) as [HP|HP].
  - by rewrite bool_decide_true, filter_cons_True, IH.
  - by rewrite bool_decide_false, filter_cons_False, IH.
Qed.

Lemma drop_columns t labels :
  columns (pd.drop t labels) = filter (λ c, c ∉ labels) (columns t).
Proof. apply (take_mask_filter (λ c, c ∉ labels)). Qed.

Lemma drop_len t labels : pd.len (pd.drop t labels) = pd.len t.
Proof. unfold pd.len, pd.drop. simpl. apply length_fmap. Qed.

(** A cell of a kept column sits, after the drop, under the same label. *)
Lemma take_mask_lookup_loc (P : string → Prop) `{!∀ x, Decision (P x)}
    (cols : list string) (c : string) (r : row) :
  c ∈ cols → P c →
  pd.take_mask ((λ x, bool_decide (P x)) <$> cols) r
    !! pd.get_loc c (filter P cols)
  = r !! pd.get_loc c cols.
Proof.
  intros Hc HP. revert r.
  induction cols as [|c' cols IH]; intros r; [by apply elem_of_nil in Hc|].
  rewrite fmap_cons. destruct r as [|x r].
  { by rewrite !lookup_nil. }
  cbn [pd.take_mask pd.get_loc].
  destruct (decide (c' = c)) as [->|Hne].
  - rewrite bool_decide_true, filter_cons_True by done.
    cbn [pd.get_loc]. by rewrite decide_True.
  - apply elem_of_cons in Hc as [Hc|Hc]; [congruence|].
    destruct (decide (P c')) as [HP'|HP'].
    + rewrite bool_decide_true, filter_cons_True by done.
      cbn [pd.get_loc]. rewrite decide_False by done. by apply IH.
    + rewrite bool_decide_false, filter_cons_False by done. by apply IH.
Qed.

Lemma drop_getitem t labels c :
  c ∈ columns t → c ∉ labels →
  pd.getitem (pd.drop t labels) c = pd.getitem t c.
Proof.
  intros Hc Hl. unfold pd.getitem, pd.icol.
  rewrite drop_columns. unfold pd.drop. simpl.
  rewrite <- list_fmap_compose. apply list_fmap_ext. intros _ r _. simpl.
  by rewrite (take_mask_lookup_loc (λ x, x ∉ labels)).
Qed.

Lemma getitem_length t c : length (pd.getitem t c) = pd.len t.
Proof. unfold pd.getitem, pd.icol, pd.len. apply length_fmap. Qed.

Lemma remove_dups_length_le {A} `{!EqDecision A} (l : list A) :
  length (remove_dups l) ≤ length l.
Proof.
  induction l as [|x l IH]; simpl; [done|]. case_decide; simpl; lia.
Qed.

Lemma remove_dups_length_NoDup {A} `{!EqDecision A} (l : list A) :
  length (remove_dups l) = length l ↔ NoDup l.
Proof.
  induction l as [|x l IH]; simpl.
  - split; [constructor | done].
  - pose proof (remove_dups_length_le l) as Hle.
    rewrite NoDup_cons. case_decide as Hx; simpl.
    + split; [lia | ptauto].
    + rewrite <- IH. split; [intros; split; [done|lia] | intros [_ ?]; lia].
Qed.

(** A column has as many distinct values as the table has rows exactly
    when no value repeats and none is missing. *)
Lemma nunique_full s :
  pd.nunique s = length s ↔ NoDup s ∧ NaN ∉ s.
Proof.
  unfold pd.nunique.
  pose proof (remove_dups_length_le (filter (λ c, c ≠ NaN) s)) as H1.
  pose proof (length_filter (λ c, c ≠ NaN) s) as H2.
  split.
  - intros Heq.
    assert (NaN ∉ s) as Hna.
    { intros Hin.
      pose proof (length_filter_lt (λ c, c ≠ NaN) s NaN Hin) as Hlt.
      assert (¬ NaN ≠ NaN) as Hnn by (intros ?; done).
      specialize (Hlt Hnn). lia. }
    split; [|done].
    assert (filter (λ c, c ≠ NaN) s = s) as Hf.
    { apply filter_Forall_id, Forall_forall. intros c Hc ->. done. }
    rewrite Hf in Heq. by apply remove_dups_length_NoDup.
  - intros [Hnd Hna].
    assert (filter (λ c, c ≠ NaN) s = s) as ->.
    { apply filter_Forall_id, Forall_forall. intros c Hc ->. done. }
    by apply remove_dups_length_NoDup.
Qed.

Lemma nunique_le s : pd.nunique s ≤ length s.
Proof.
  unfold pd.nunique. etrans; [apply remove_dups_length_le | apply length_filter].
Qed.

Lemma repeated_not_NoDup s : repeated s → ¬ NoDup s.
Proof.
  intros (i & j & v & Hij & Hi & Hj) Hnd.
  apply Hij. by eapply NoDup_lookup.
Qed.

Lemma elem_of_cols_to_drop t c :
  c ∈ cols_to_drop t ↔
  c ∈ columns t ∧ pd.nunique (pd.getitem t c) = pd.len t.
Proof. unfold cols_to_drop. rewrite list_elem_of_filter. ptauto. Qed.

(** The surviving labels are those of the input whose column, in the
    input table, is not all-unique. *)
Lemma select_features_columns t :
  columns (select_features t)
  = filter (λ c, pd.nunique (pd.getitem t c) ≠ pd.len t) (columns t).
Proof.
  unfold select_features.
  destruct (cols_to_drop t) as [|c0 cs] eqn:Hdrop.
  - symmetry. apply filter_Forall_id, Forall_forall. intros c Hc Heq.
    assert (c ∈ cols_to_drop t) as Hin by (by apply elem_of_cols_to_drop).
    rewrite Hdrop in Hin. by apply elem_of_nil in Hin.
  - rewrite drop_columns, <- Hdrop. apply filter_ext_elem. intros c Hc.
    rewrite elem_of_cols_to_drop. ptauto.
Qed.

Lemma select_features_len t : pd.len (select_features t) = pd.len t.
Proof.
  unfold select_features. destruct (cols_to_drop t); [done|apply drop_len].
Qed.

Lemma select_features_getitem t c :
  c ∈ columns (select_features t) →
  pd.getitem (select_features t) c = pd.getitem t c.
Proof.
  intros Hc. pose proof Hc as Hc'.
  rewrite select_features_columns, list_elem_of_filter in Hc'.
  destruct Hc' as [Hne Hin].
  unfold select_features in *. destruct (cols_to_drop t) eqn:Hdrop; [done|].
  rewrite <- Hdrop. apply drop_getitem; [done|].
  rewrite elem_of_cols_to_drop. ptauto.
Qed.

(** ** Facts about the split *)

Lemma take_mask_init (P : string → Prop) `{!∀ x, Decision (P x)}
    {A} (l : list string) (x : string) (r : list A) :
  Forall P l → ¬ P x →
  pd.take_mask ((λ c, bool_decide (P c)) <$> (l ++ [x])) r = take (length l) r.
Proof.
  intros Hl Hx. revert r.
  induction Hl as [|c l Hc _ IH]; intros r; simpl.
  - rewrite bool_decide_false by done. by destruct r.
  - rewrite bool_decide_true by done. destruct r as [|a r]; [done|].
    simpl. f_equal. apply IH.
Qed.

Lemma get_loc_last l x : x ∉ l → pd.get_loc x (l ++ [x]) = length l.
Proof.
  induction l as [|c l IH]; intros Hx; simpl.
  - by rewrite decide_True.
  - apply not_elem_of_cons in Hx as [Hne Hx].
    rewrite decide_False by done. f_equal. by apply IH.
Qed.

Lemma header_last t :
  NoDup (columns t) → 1 ≤ length (columns t) →
  ∃ l x, columns t = l ++ [x] ∧ (x ∉ l) ∧ last (columns t) = Some x
         ∧ length l = length (columns t) - 1
         ∧ l = take (length (columns t) - 1) (columns t).
Proof.
  intros Hnd Hlen.
  induction (columns t) as [|c cs _] using rev_ind.
  { simpl in Hlen. lia. }
  exists cs, c.
  apply NoDup_app in Hnd as (_ & Hdisj & _).
  rewrite length_app. simpl.
  replace (length cs + 1 - 1) with (length cs) by lia.
  split_and!; [done| |apply last_snoc|done|by rewrite take_app_length].
  intros Hin. apply (Hdisj c Hin). left.
Qed.

Lemma drop_target t l x :
  columns t = l ++ [x] → x ∉ l →
  pd.drop t [x] = {| columns := l; rows := take (length l) <$> rows t |}.
Proof.
  intros Hcols Hx. unfold pd.drop. rewrite Hcols.
  assert (Forall (λ c, c ∉ [x]) l) as Hl.
  { apply Forall_forall. intros c Hc [->|[]%elem_of_nil]%elem_of_cons. done. }
  assert (¬ (x ∉ [x])) as Hx' by (intros H; apply H; left).
  f_equal.
  - rewrite (take_mask_init (λ c, c ∉ [x])) by done. by rewrite take_app_length.
  - apply list_fmap_ext. intros _ r _.
    by rewrite (take_mask_init (λ c, c ∉ [x])).
Qed.

Lemma getitem_target t l x :
  columns t = l ++ [x] → x ∉ l →
  pd.getitem t x = (λ r : row, default NaN (r !! length l)) <$> rows t.
Proof.
  intros Hcols Hx. unfold pd.getitem, pd.icol.
  by rewrite Hcols, get_loc_last.
Qed.

Lemma last_lookup_length {A} (r : list A) n :
  length r = S n → r !! n = last r.
Proof. intros Hr. rewrite last_lookup, Hr. done. Qed.

(** ** How each handler runs *)

Lemma cleaner_run next t st :
  CleanDataHandler_handle next (Some t) st
  = DataHandler_handle next (Some (clean t))
      (store "cleaned_shape" (VShape (pd.shape (clean t))) st).
Proof. done. Qed.

Lemma selector_run next t st :
  FeatureSelectionHandler_handle next (Some t) st
  = DataHandler_handle next (Some (select_features t))
      (store "selected_features" (VLabels (columns (select_features t))) st).
Proof. done. Qed.

Lemma splitter_raises next t st :
  length (columns t) < 2 →
  SplitDataHandler_handle next (Some t) st = (Raise ValueError, st).
Proof. intros Hlt. unfold SplitDataHandler_handle. by rewrite decide_True. Qed.

Lemma splitter_run next t st target :
  2 ≤ length (columns t) → last (columns t) = Some target →
  SplitDataHandler_handle next (Some t) st
  = DataHandler_handle next (Some t)
      (store "target_column" (VStr target)
        (store "y_data" (VVector (pd.getitem t target))
          (store "X_data" (VMatrix (pd.values (pd.drop t [target]))) st))).
Proof.
  intros Hlen Hlast. unfold SplitDataHandler_handle.
  rewrite decide_False by lia. by rewrite Hlast.
Qed.

Lemma loader_run next p t st :
  context st !! "file_path" = Some (VStr p) → read_csv p = Some t →
  DataLoaderHandler_handle next None st
  = DataHandler_handle next (Some t)
      (store "original_shape" (VShape (pd.shape t)) st).
Proof.
  intros Hp Ht.
  unfold DataLoaderHandler_handle, bind, try_except, ctx_getitem, pd_read_csv.
  by rewrite Hp, Ht.
Qed.

Lemma loader_passes next t st :
  DataLoaderHandler_handle next (Some t) st = DataHandler_handle next (Some t) st.
Proof. done. Qed.

Lemma saver_run next data st X y :
  context st !! "X_data" = Some X → context st !! "y_data" = Some y →
  save_ok (files st) (x_path (context st)) X = true →
  save_ok (<[x_path (context st) := X]> (files st)) (y_path (context st)) y = true →
  SaveNumpyHandler_handle next data st
  = DataHandler_handle next data
      (written (y_path (context st)) y (written (x_path (context st)) X st)).
Proof.
  intros HX Hy Hsx Hsy.
  unfold SaveNumpyHandler_handle, bind, try_except, ctx_get, ctx_getitem, np_save.
  fold (x_path (context st)). fold (y_path (context st)).
  rewrite HX, Hsx. cbn [written context files]. rewrite Hy.
  cbn [written context files]. by rewrite Hsy.
Qed.

Lemma saver_fails_first next data st X :
  context st !! "X_data" = Some X →
  save_ok (files st) (x_path (context st)) X = false →
  SaveNumpyHandler_handle next data st = (Exit 1, st).
Proof.
  intros HX Hsx.
  unfold SaveNumpyHandler_handle, bind, try_except, ctx_get, ctx_getitem, np_save.
  fold (x_path (context st)). by rewrite HX, Hsx.
Qed.

Lemma saver_fails_second next data st X y :
  context st !! "X_data" = Some X → context st !! "y_data" = Some y →
  save_ok (files st) (x_path (context st)) X = true →
  save_ok (<[x_path (context st) := X]> (files st)) (y_path (context st)) y = false →
  SaveNumpyHandler_handle next data st
  = (Exit 1, written (x_path (context st)) X st).
Proof.
  intros HX Hy Hsx Hsy.
  unfold SaveNumpyHandler_handle, bind, try_except, ctx_get, ctx_getitem, np_save.
  fold (x_path (context st)). fold (y_path (context st)).
  rewrite HX, Hsx. cbn [written context files]. rewrite Hy.
  cbn [written context files]. by rewrite Hsy.
Qed.

(** ** The cast of [values] *)


Lemma to_float64_small z : (Z.abs z ≤ 2 ^ 53)%Z → pd.to_float64 z = z.
Proof.
  intros Hz. unfold pd.to_float64.
  destruct (decide (Z.abs z = 2 ^ 53)%Z) as [Heq|Hne].
  - destruct (Z.abs_spec z) as [[_ Ha]|[_ Ha]].
    + assert (z = 2 ^ 53)%Z as -> by lia. by vm_compute.
    + assert (z = - 2 ^ 53)%Z as -> by lia. by vm_compute.
  - destruct (decide (Z.abs z = 0)%Z) as [H0|H0].
    + rewrite H0. done.
    + assert (Z.log2 (Z.abs z) < 53)%Z as Hlog
        by (apply Z.log2_lt_pow2; lia).
      rewrite (proj2 (Z.leb_le _ _)); [done|lia].
Qed.

Lemma values_shape t : nd_shape (pd.values t) = pd.shape t.
Proof. done. Qed.

Lemma values_length t : length (nd_data (pd.values t)) = pd.len t.
Proof. unfold pd.values, pd.len. simpl. apply length_fmap. Qed.



(** On a well-formed table with a target column the split takes the
    last cell of every row as the target and the cells before it, in
    their order, as the features. *)
Lemma split_wf t :
  wf_frame t → 2 ≤ length (columns t) →
  ∃ target,
    last (columns t) = Some target ∧
    pd.drop t [target]
      = {| columns := take (length (columns t) - 1) (columns t);
           rows := take (length (columns t) - 1) <$> rows t |} ∧
    pd.getitem t target = (λ r : row, default NaN (last r)) <$> rows t.
Proof.
  intros [Hnd Hrect] Hlen.
  destruct (header_last t Hnd) as (l & x & Hcols & Hx & Hlast & Hl & Htake);
    [lia|].
  exists x. split_and!; [done| |].
  - rewrite (drop_target t l x Hcols Hx), <- Htake. by rewrite Hl.
  - rewrite (getitem_target t l x Hcols Hx).
    apply list_fmap_ext. intros i r Hr.
    rewrite Forall_forall in Hrect.
    assert (length r = S (length l)) as Hlr.
    { rewrite (Hrect r), Hcols, length_app by (by eapply list_elem_of_lookup_2).
      simpl. lia. }
    by rewrite (last_lookup_length r (length l)).
Qed.

(** ** The run up to the splitter and up to the saver *)

Lemma chain_pipeline : chain pipeline_stages = Some loader.
Proof. done. Qed.

Lemma run_to_splitter p od fs t :
  read_csv p = Some t →
  loader None {| context := initial_context p od; files := fs |}
  = SplitDataHandler_handle (chain [Saver])
      (Some (select_features (clean t))) (before_split p od fs t).
Proof.
  intros Ht. unfold loader. cbn [chain stage_handle].
  by rewrite (loader_run _ p t).
Qed.

Lemma run_to_saver p od fs t target :
  read_csv p = Some t →
  2 ≤ length (columns (select_features (clean t))) →
  last (columns (select_features (clean t))) = Some target →
  loader None {| context := initial_context p od; files := fs |}
  = SaveNumpyHandler_handle None
      (Some (select_features (clean t))) (before_save p od fs t target).
Proof.
  intros Ht Hlen Hlast. rewrite (run_to_splitter p od fs t Ht).
  by rewrite (splitter_run _ _ _ target).
Qed.

Lemma before_save_lookups p od fs t target :
  let st := before_save p od fs t target in
  context st !! "X_data" = Some (run_X t target) ∧
  context st !! "y_data" = Some (run_y t target) ∧
  x_path (context st) = od +:+ "/x_data.npy" ∧
  y_path (context st) = od +:+ "/y_data.npy" ∧
  files st = fs.
Proof.
  assert (context (before_save p od fs t target) !! "output_dir" = Some (VStr od))
    as Hod.
  { unfold before_save, before_split, store, initial_context. simpl.
    rewrite !lookup_insert_ne by done. apply lookup_insert_eq. }
  cbv zeta. unfold x_path, y_path. rewrite Hod.
  unfold before_save, before_split, store. simpl.
  by split_and!.
Qed.

(** ** The context discipline *)

Lemma keeps_refl K st : keeps K st st.
Proof. by split. Qed.

Lemma keeps_trans K1 K2 st1 st2 st3 :
  keeps K1 st1 st2 → keeps K2 st2 st3 → keeps (K1 ++ K2) st1 st3.
Proof.
  intros [Hd1 Hk1] [Hd2 Hk2]. split; [by etrans|].
  intros k [Hn1 Hn2]%not_elem_of_app. by rewrite Hk2, Hk1.
Qed.

Lemma keeps_mono K K' st st' : K ⊆ K' → keeps K st st' → keeps K' st st'.
Proof.
  intros Hsub [Hd Hk]. split; [done|]. intros k Hn. apply Hk.
  intros Hin. by apply Hn, Hsub.
Qed.

Lemma keeps_store k v st : keeps [k] st (store k v st).
Proof.
  split; simpl.
  - rewrite dom_insert_L. apply union_subseteq_r.
  - intros k' Hn. apply lookup_insert_ne. intros ->. apply Hn. left.
Qed.

Lemma keeps_written K p v st : keeps K st (written p v st).
Proof. by split. Qed.

Lemma frames_mono {A} K K' (m : M A) : K ⊆ K' → frames K m → frames K' m.
Proof. intros Hsub Hm st. by eapply keeps_mono. Qed.

Lemma frames_ret {A} (a : A) : frames [] (ret a).
Proof. intros st. apply keeps_refl. Qed.

Lemma frames_raise {A} e : frames [] (@raise A e).
Proof. intros st. apply keeps_refl. Qed.

Lemma frames_sys_exit {A} c : frames [] (@sys_exit A c).
Proof. intros st. apply keeps_refl. Qed.

Lemma frames_bind {A B} K1 K2 (m : M A) (k : A → M B) :
  frames K1 m → (∀ a, frames K2 (k a)) → frames (K1 ++ K2) (bind m k).
Proof.
  intros Hm Hk st. unfold bind. specialize (Hm st).
  destruct (m st) as [[a|e|c] st1]; simpl in *.
  - eapply keeps_trans; [done|apply Hk].
  - eapply keeps_mono; [|done]. by apply list_subseteq_app_l.
  - eapply keeps_mono; [|done]. by apply list_subseteq_app_l.
Qed.

Lemma frames_try_except {A} K1 K2 (m : M A) (h : exn → M A) :
  frames K1 m → (∀ e, frames K2 (h e)) → frames (K1 ++ K2) (try_except m h).
Proof.
  intros Hm Hh st. unfold try_except. specialize (Hm st).
  destruct (m st) as [[a|e|c] st1]; simpl in *.
  - eapply keeps_mono; [|done]. by apply list_subseteq_app_l.
  - eapply keeps_trans; [done|apply Hh].
  - eapply keeps_mono; [|done]. by apply list_subseteq_app_l.
Qed.

Lemma frames_ctx_getitem k : frames [] (ctx_getitem k).
Proof.
  intros st. unfold ctx_getitem. destruct (context st !! k); apply keeps_refl.
Qed.

Lemma frames_ctx_get k d : frames [] (ctx_get k d).
Proof. intros st. apply keeps_refl. Qed.

Lemma frames_ctx_setitem k v : frames [k] (ctx_setitem k v).
Proof. intros st. apply keeps_store. Qed.

Lemma frames_pd_read_csv v : frames [] (pd_read_csv v).
Proof.
  intros st. unfold pd_read_csv.
  destruct v as [p| | | |]; try apply keeps_refl.
  destruct (read_csv p); apply keeps_refl.
Qed.

Lemma frames_np_save p v : frames [] (np_save p v).
Proof.
  intros st. unfold np_save.
  destruct (save_ok (files st) p v); [apply keeps_written|apply keeps_refl].
Qed.

Lemma frames_forward K (next : option handler) data :
  (∀ h d, next = Some h → frames K (h d)) →
  frames K (DataHandler_handle next data).
Proof.
  intros Hnext. unfold DataHandler_handle. destruct next as [h|].
  - by apply Hnext.
  - eapply frames_mono; [|apply frames_ret]. apply list_subseteq_nil.
Qed.

#[local] Hint Resolve frames_ret frames_raise frames_sys_exit frames_ctx_getitem
  frames_ctx_get frames_ctx_setitem frames_pd_read_csv frames_np_save
  : frames.

Ltac frames_step :=
  first
    [ eapply frames_bind; [|intros ?]
    | eapply frames_try_except; [|intros ?]
    | solve [eauto with frames] ].

(** A stage writes its own keys only, whatever follows it writes its
    own. *)
Lemma frames_stage s K (next : option handler) data :
  (∀ h d, next = Some h → frames K (h d)) →
  frames (stage_keys s ++ K) (stage_handle s next data).
Proof.
  intros Hnext.
  pose proof (λ d, frames_forward K next d Hnext) as Hfwd.
  destruct s; cbn [stage_handle stage_keys].
  - unfold DataLoaderHandler_handle.
    eapply frames_bind; [|intros d; apply Hfwd].
    destruct data as [t|].
    + eapply frames_mono; [|apply frames_ret]. apply list_subseteq_nil.
    + eapply (frames_mono ((([] ++ [] ++ ["original_shape"] ++ []) ++ []))); [done|].
      repeat frames_step.
  - unfold CleanDataHandler_handle. destruct data as [t|].
    + eapply frames_bind; [apply frames_ctx_setitem|intros _; apply Hfwd].
    + eapply frames_mono; [|apply frames_raise]. apply list_subseteq_nil.
  - unfold FeatureSelectionHandler_handle. destruct data as [t|].
    + eapply frames_bind; [apply frames_ctx_setitem|intros _; apply Hfwd].
    + eapply frames_mono; [|apply frames_raise]. apply list_subseteq_nil.
  - unfold SplitDataHandler_handle. destruct data as [t|].
    2:{ eapply frames_mono; [|apply frames_raise]. apply list_subseteq_nil. }
    case_decide.
    { eapply frames_mono; [|apply frames_raise]. apply list_subseteq_nil. }
    destruct (last (columns t)) as [target|].
    2:{ eapply frames_mono; [|apply frames_raise]. apply list_subseteq_nil. }
    eapply (frames_mono (["X_data"] ++ ["y_data"] ++ ["target_column"] ++ K));
      [done|].
    repeat (eapply frames_bind; [apply frames_ctx_setitem|intros _]).
    apply Hfwd.
  - unfold SaveNumpyHandler_handle.
    eapply (frames_mono ([] ++ (([] ++ [] ++ [] ++ []) ++ []) ++ K)); [done|].
    eapply frames_bind; [apply frames_ctx_get|intros od].
    eapply frames_bind; [|intros _; apply Hfwd].
    repeat frames_step.
Qed.

Lemma frames_chain stages :
  ∀ h d, chain stages = Some h → frames (stages_keys stages) (h d).
Proof.
  induction stages as [|s rest IH]; intros h d Hh; [done|].
  simpl in Hh. injection Hh as <-.
  unfold stages_keys. rewrite fmap_cons. simpl.
  by apply frames_stage.
Qed.

Lemma stage_keys_disjoint s1 s2 k :
  k ∈ stage_keys s1 → k ∈ stage_keys s2 → s1 = s2.
Proof.
  destruct s1, s2; simpl; try done;
    rewrite ?elem_of_cons, ?elem_of_nil; intros H1 H2;
    exfalso; forget_world; intuition congruence.
Qed.

Lemma stage_keys_fresh s k p od :
  k ∈ stage_keys s → initial_context p od !! k = None.
Proof.
  unfold initial_context.
  destruct s; simpl; rewrite ?elem_of_cons, ?elem_of_nil; intros Hk;
    rewrite !lookup_insert_ne, ?lookup_empty; forget_world; intuition congruence.
Qed.

(** ** The claims *)


(** C3: the cleaner keeps the header, removes the rows whose cells are
    all missing and then, among the rows left, every row equal to an
    earlier one; the table it hands on is the result of exactly these two
    removals in this order. *)
Theorem cleaner_row_contract (next : option handler) (t : DataFrame) (st : state) :
  rows (pd.dropna_all t) = filter (λ r, ¬ Forall (λ c, c = NaN) r) (rows t) ∧
  rows (pd.drop_duplicates (pd.dropna_all t))
    = first_occurrences (rows (pd.dropna_all t)) ∧
  rows (clean t) = spec_clean_rows (rows t) ∧
  columns (clean t) = columns t ∧
  CleanDataHandler_handle next (Some t) st
    = DataHandler_handle next (Some (clean t))
        (store "cleaned_shape" (VShape (pd.shape (clean t))) st).
Proof.
  split_and!; try done.
  - apply unseen_first_occurrences.
  - rewrite clean_rows. apply unseen_first_occurrences.
Qed.

(** C4: the cleaner never adds rows, and cleaning a cleaned table changes
    nothing: the second run returns its input. *)
Theorem cleaner_shrinks_and_is_idempotent (t : DataFrame) (st st' : state) :
  pd.len (clean t) ≤ pd.len t ∧
  clean (clean t) = clean t ∧
  pd.len (clean t) - pd.len (clean (clean t)) = 0 ∧
  (CleanDataHandler_handle None (Some t) st).1 = Ok (Some (clean t)) ∧
  (CleanDataHandler_handle None (Some (clean t)) st').1 = Ok (Some (clean t)).
Proof.
  split_and!.
  - apply clean_length.
  - apply clean_idempotent.
  - rewrite clean_idempotent. lia.
  - done.
  - rewrite cleaner_run. simpl. by rewrite clean_idempotent.
Qed.

(** C5: the feature selector only removes columns; a column holding a
    repeated value is kept; and which columns go is decided on the input
    table: the survivors are the input's columns that are not all-unique
    there, and every survivor has the same values and the same mark before
    and after the removal. *)
Theorem selector_contract (t : DataFrame) :
  columns (select_features t) ⊆ columns t ∧
  (∀ c, c ∈ columns t → 2 ≤ pd.len t → repeated (pd.getitem t c) →
        c ∈ columns (select_features t)) ∧
  columns (select_features t)
    = filter (λ c, pd.nunique (pd.getitem t c) ≠ pd.len t) (columns t) ∧
  (∀ c, c ∈ columns (select_features t) →
        pd.getitem (select_features t) c = pd.getitem t c ∧
        (pd.nunique (pd.getitem (select_features t) c) = pd.len (select_features t)
         ↔ pd.nunique (pd.getitem t c) = pd.len t)).
Proof.
  split_and!.
  - intros c. rewrite select_features_columns, list_elem_of_filter. ptauto.
  - intros c Hc _ Hrep.
    rewrite select_features_columns, list_elem_of_filter. split; [|done].
    rewrite <- (getitem_length t c), nunique_full.
    intros [Hnd _]. by apply (repeated_not_NoDup _ Hrep).
  - apply select_features_columns.
  - intros c Hc.
    by rewrite select_features_getitem, select_features_len.
Qed.

(** C6: in a table without rows every column has as many distinct values
    as there are rows, namely none, so every column is marked and the
    selector hands on a table without columns. *)
Theorem selector_drops_all_columns_of_empty_table
    (next : option handler) (t : DataFrame) (st : state) :
  pd.len t = 0 →
  (∀ c, c ∈ columns t → pd.nunique (pd.getitem t c) = pd.len t) ∧
  cols_to_drop t = columns t ∧
  columns (select_features t) = [] ∧
  FeatureSelectionHandler_handle next (Some t) st
    = DataHandler_handle next (Some (select_features t))
        (store "selected_features" (VLabels []) st).
Proof.
  intros Hlen.
  assert (∀ c, pd.nunique (pd.getitem t c) = pd.len t) as Hall.
  { intros c. pose proof (nunique_le (pd.getitem t c)) as Hle.
    rewrite getitem_length in Hle. lia. }
  assert (columns (select_features t) = []) as Hnil.
  { rewrite select_features_columns. apply filter_Forall_nil, Forall_forall.
    intros c _ Hne. by apply Hne. }
  split_and!; [by intros c _| |done|].
  - unfold cols_to_drop. apply filter_Forall_id, Forall_forall. by intros c _.
  - by rewrite selector_run, Hnil.
Qed.

(** C10: in a table with at least one row a column holding a missing
    value has fewer distinct values than the table has rows, whatever its
    other values are, so the selector keeps it. *)
Theorem selector_keeps_columns_with_missing (t : DataFrame) (c : string) :
  1 ≤ pd.len t → c ∈ columns t → NaN ∈ pd.getitem t c →
  pd.nunique (pd.getitem t c) < pd.len t ∧
  c ∈ columns (select_features t).
Proof.
  intros _ Hc Hna.
  assert (pd.nunique (pd.getitem t c) ≠ pd.len t) as Hne.
  { rewrite <- (getitem_length t c), nunique_full. ptauto. }
  split.
  - pose proof (nunique_le (pd.getitem t c)) as Hle.
    rewrite getitem_length in Hle. lia.
  - rewrite select_features_columns, list_elem_of_filter. done.
Qed.

Lemma process_exit st c p od fs :
  loader None {| context := initial_context p od; files := fs |} = (Exit c, st) →
  process p od fs = (Exit c, st).
Proof. intros H. unfold process, try_except, bind. by rewrite H. Qed.

Lemma process_raise st e p od fs :
  loader None {| context := initial_context p od; files := fs |} = (Raise e, st) →
  process p od fs = (Exit 1, st).
Proof. intros H. unfold process, try_except, bind. by rewrite H. Qed.

Lemma saver_forwards next data st :
  ∃ st', SaveNumpyHandler_handle next data st = (Exit 1, st') ∨
         SaveNumpyHandler_handle next data st = DataHandler_handle next data st'.
Proof.
  unfold SaveNumpyHandler_handle, bind, try_except, ctx_get, ctx_getitem,
    np_save, sys_exit.
  destruct (context st !! "X_data") as [X|]; [|by eexists; left].
  destruct (save_ok (files st) _ X); [|by eexists; left].
  cbn [written context files].
  destruct (context st !! "y_data") as [y|]; [|by eexists; left].
  destruct (save_ok _ _ y); [by eexists; right | by eexists; left].
Qed.

(** C2: a table that reaches the splitter with fewer than two columns
    makes the splitter raise; the error travels back through the chain to
    [process], which ends the run with status 1, and the files are those
    there were before the run. *)
Theorem narrow_table_aborts_the_run
    (p od : string) (fs : gmap string value) (t : DataFrame) :
  read_csv p = Some t →
  length (columns (select_features (clean t))) < 2 →
  (∀ next t' st, length (columns t') < 2 →
     SplitDataHandler_handle next (Some t') st = (Raise ValueError, st)) ∧
  loader None {| context := initial_context p od; files := fs |}
    = (Raise ValueError, before_split p od fs t) ∧
  process p od fs = (Exit 1, before_split p od fs t) ∧
  files (process p od fs).2 = fs ∧
  exit_status (process p od fs).1 = 1%Z.
Proof.
  intros Ht Hlt.
  assert (loader None {| context := initial_context p od; files := fs |}
          = (Raise ValueError, before_split p od fs t)) as Hrun.
  { rewrite (run_to_splitter p od fs t Ht). by apply splitter_raises. }
  rewrite (process_raise _ _ _ _ _ Hrun).
  split_and!; try done. intros next t' st. apply splitter_raises.
Qed.

(** C9: when a write of the saver fails the handler leaves through
    [sys.exit(1)], so the run ends with status 1; if it is the write of
    the target vector that fails, the feature-matrix file written just
    before is still there at the end. *)
Theorem failed_save_exits_and_keeps_files
    (p od : string) (fs : gmap string value) (t : DataFrame) (target : string) :
  read_csv p = Some t →
  2 ≤ length (columns (select_features (clean t))) →
  last (columns (select_features (clean t))) = Some target →
  (∀ next data st X y,
     context st !! "X_data" = Some X → context st !! "y_data" = Some y →
     (save_ok (files st) (x_path (context st)) X = false →
      SaveNumpyHandler_handle next data st = (Exit 1, st)) ∧
     (save_ok (files st) (x_path (context st)) X = true →
      save_ok (<[x_path (context st) := X]> (files st)) (y_path (context st)) y
        = false →
      SaveNumpyHandler_handle next data st
        = (Exit 1, written (x_path (context st)) X st))) ∧
  (save_ok fs (od +:+ "/x_data.npy") (run_X t target) = false →
   process p od fs = (Exit 1, before_save p od fs t target) ∧
   files (process p od fs).2 = fs ∧
   exit_status (process p od fs).1 = 1%Z) ∧
  (save_ok fs (od +:+ "/x_data.npy") (run_X t target) = true →
   save_ok (<[od +:+ "/x_data.npy" := run_X t target]> fs)
     (od +:+ "/y_data.npy") (run_y t target) = false →
   process p od fs
     = (Exit 1, written (od +:+ "/x_data.npy") (run_X t target)
                  (before_save p od fs t target)) ∧
   files (process p od fs).2 = <[od +:+ "/x_data.npy" := run_X t target]> fs ∧
   files (process p od fs).2 !! (od +:+ "/x_data.npy") = Some (run_X t target) ∧
   exit_status (process p od fs).1 = 1%Z).
Proof.
  intros Ht Hlen Hlast.
  pose proof (run_to_saver p od fs t target Ht Hlen Hlast) as Hrun.
  destruct (before_save_lookups p od fs t target) as (HX & Hy & Hxp & Hyp & Hfs).
  split_and!.
  - intros next data st X y HXs Hys. split.
    + by apply saver_fails_first.
    + by apply saver_fails_second.
  - intros Hfail.
    rewrite (saver_fails_first _ _ _ _ HX) in Hrun by (by rewrite Hxp, Hfs).
    by rewrite (process_exit _ _ _ _ _ Hrun).
  - intros Hok Hfail.
    rewrite (saver_fails_second _ _ _ _ _ HX Hy) in Hrun
      by (by rewrite ?Hxp, ?Hyp, Hfs).
    rewrite (process_exit _ _ _ _ _ Hrun), Hxp.
    cbn [written files fst snd]. rewrite Hfs.
    split_and!; try done. apply lookup_insert_eq.
Qed.

Lemma stages_keys_app l1 l2 :
  stages_keys (l1 ++ l2) = stages_keys l1 ++ stages_keys l2.
Proof. unfold stages_keys. by rewrite fmap_app, concat_app. Qed.

Lemma pipeline_keys_NoDup :
  NoDup ("file_path" :: "output_dir" :: stages_keys pipeline_stages).
Proof. apply (bool_decide_unpack _). by vm_compute. Qed.

(** The keys present when a suffix of the pipeline starts are not among
    the keys that suffix writes. *)
Lemma earlier_keys_not_written pre post k :
  pipeline_stages = pre ++ post →
  k ∈ stages_keys pre ∨ k = "file_path" ∨ k = "output_dir" →
  k ∉ stages_keys post.
Proof.
  intros Hsplit Hk Hpost.
  pose proof pipeline_keys_NoDup as Hnd.
  rewrite Hsplit, stages_keys_app in Hnd.
  apply NoDup_cons in Hnd as [Hfp Hnd]. apply NoDup_cons in Hnd as [Hod Hnd].
  apply NoDup_app in Hnd as (_ & Hdisj & _).
  destruct Hk as [Hk|[Hk|Hk]]; subst.
  - by apply (Hdisj k).
  - apply Hfp. right. apply elem_of_app. by right.
  - apply Hod. apply elem_of_app. by right.
Qed.

(** C7 (amended): the context starts with the input path and
    the output directory; a stage and the stages chained behind it remove
    no key and write only their own keys; the stages' keys are pairwise
    different and different from the two initial keys; so in a run no entry
    that is already there is ever overwritten, and it keeps its kind. *)
Theorem context_is_append_only :
  (∀ p od, dom (initial_context p od)
           = ({["file_path"; "output_dir"]} : gset string)) ∧
  (∀ s rest data st,
     dom (context st) ⊆ dom (context (stage_handle s (chain rest) data st).2) ∧
     ∀ k, k ∉ stage_keys s ++ stages_keys rest →
          context (stage_handle s (chain rest) data st).2 !! k
          = context st !! k) ∧
  (∀ s1 s2 k, k ∈ stage_keys s1 → k ∈ stage_keys s2 → s1 = s2) ∧
  (∀ s k p od, k ∈ stage_keys s → initial_context p od !! k = None) ∧
  (∀ pre post k data st,
     pipeline_stages = pre ++ post →
     k ∈ stages_keys pre ∨ k = "file_path" ∨ k = "output_dir" →
     context (DataHandler_handle (chain post) data st).2 !! k = context st !! k ∧
     kind_of <$> context (DataHandler_handle (chain post) data st).2 !! k
     = kind_of <$> context st !! k).
Proof.
  split_and!.
  - intros p od. unfold initial_context.
    rewrite !dom_insert_L, dom_empty_L. set_solver.
  - intros s rest data st.
    apply (frames_stage s (stages_keys rest) (chain rest) data (frames_chain rest)).
  - apply stage_keys_disjoint.
  - apply stage_keys_fresh.
  - intros pre post k data st Hsplit Hk.
    pose proof (earlier_keys_not_written pre post k Hsplit Hk) as Hn.
    destruct (frames_forward (stages_keys post) (chain post) data
                (frames_chain post) st) as [_ Hkeep].
    by rewrite (Hkeep k Hn).
Qed.

(** C8: the columns after feature selection are among the columns after
    cleaning, and every stage hands on the columns it keeps in the order
    it got them: the loader and the saver pass the table on as it is, the
    cleaner keeps the whole header, the selector keeps a subsequence of
    it, the splitter passes its table on unchanged and builds the feature
    matrix from the cells before the last one of every row, in their
    order. *)
Theorem stages_keep_column_order (next : option handler) (t : DataFrame) (st : state) :
  columns (select_features (clean t)) ⊆ columns (clean t) ∧
  columns (select_features (clean t)) `sublist_of` columns t ∧
  DataLoaderHandler_handle next (Some t) st = DataHandler_handle next (Some t) st ∧
  (∃ st', CleanDataHandler_handle next (Some t) st
          = DataHandler_handle next (Some (clean t)) st') ∧
  columns (clean t) = columns t ∧
  (∃ st', FeatureSelectionHandler_handle next (Some t) st
          = DataHandler_handle next (Some (select_features t)) st') ∧
  columns (select_features t) `sublist_of` columns t ∧
  (2 ≤ length (columns t) →
   ∃ st', SplitDataHandler_handle next (Some t) st
          = DataHandler_handle next (Some t) st') ∧
  (wf_frame t → 2 ≤ length (columns t) →
   ∃ X st',
     SplitDataHandler_handle next (Some t) st
       = DataHandler_handle next (Some t) st' ∧
     context st' !! "X_data" = Some (VMatrix X) ∧
     X = pd.values {| columns := take (length (columns t) - 1) (columns t);
                      rows := take (length (columns t) - 1) <$> rows t |} ∧
     take (length (columns t) - 1) (columns t) `prefix_of` columns t) ∧
  (∃ st', SaveNumpyHandler_handle next (Some t) st = (Exit 1, st') ∨
          SaveNumpyHandler_handle next (Some t) st
          = DataHandler_handle next (Some t) st').
Proof.
  assert (∀ t', columns (select_features t') `sublist_of` columns t') as Hsub.
  { intros t'. rewrite select_features_columns. apply sublist_filter. }
  split_and!.
  - intros c. rewrite select_features_columns, list_elem_of_filter. ptauto.
  - apply (Hsub (clean t)).
  - done.
  - by eexists.
  - done.
  - by eexists.
  - apply Hsub.
  - intros Hlen.
    destruct (last (columns t)) as [target|] eqn:Hlast.
    + eexists. by apply splitter_run.
    + apply last_None in Hlast. rewrite Hlast in Hlen. simpl in Hlen. lia.
  - intros Hwf Hlen.
    destruct (split_wf t Hwf Hlen) as (target & Hlast & Hdrop & _).
    eexists _, _. split_and!.
    + by apply splitter_run.
    + unfold store. simpl. rewrite !lookup_insert_ne by done.
      apply lookup_insert_eq.
    + by rewrite Hdrop.
    + apply prefix_take.
  - apply saver_forwards.
Qed.

(** ** Further facts about the cleaner *)

Lemma unseen_filter (P : row → Prop) `{!∀ r, Decision (P r)} seen seen' l :
  (∀ r, P r → r ∈ seen ↔ r ∈ seen') →
  filter P (pd.unseen seen l) = pd.unseen seen' (filter P l).
Proof.
  revert seen seen'. induction l as [|r l IH]; intros seen seen' Hs; [done|].
  cbn [pd.unseen]. destruct (decide (P r)) as [HP|HP].
  - rewrite (filter_cons_True P r l HP). cbn [pd.unseen].
    destruct (decide (r ∈ seen)) as [Hin|Hin].
    + rewrite decide_True by (by apply Hs). by apply IH.
    + rewrite decide_False by (by rewrite <- (Hs r HP)).
      rewrite filter_cons_True by done. f_equal. apply IH.
      intros x Hx. rewrite !elem_of_cons, (Hs x Hx). done.
  - rewrite (filter_cons_False P r l HP).
    destruct (decide (r ∈ seen)) as [Hin|Hin]; [by apply IH|].
    rewrite filter_cons_False by done. apply IH.
    intros x Hx. rewrite elem_of_cons, (Hs x Hx). split; [|by right].
    intros [->|?]; done.
Qed.

Lemma elem_of_clean t r :
  r ∈ rows (clean t) ↔ r ∈ rows t ∧ ¬ pd.all_missing r.
Proof.
  rewrite clean_rows, elem_of_unseen, list_elem_of_filter.
  split; [intros [[? ?] _]; done|]. intros [? ?]. split; [done|].
  apply not_elem_of_nil.
Qed.

(** X1: the cleaned rows are a subsequence of the input rows, no row
    occurs twice among them, none of them is all missing, and they are
    exactly the input rows that are not all missing. *)
Theorem cleaner_output_characterised (t : DataFrame) :
  rows (clean t) `sublist_of` rows t ∧
  NoDup (rows (clean t)) ∧
  Forall (λ r, ¬ pd.all_missing r) (rows (clean t)) ∧
  (∀ r, r ∈ rows (clean t) ↔ r ∈ rows t ∧ ¬ pd.all_missing r).
Proof.
  split_and!.
  - rewrite clean_rows. etrans; [apply unseen_sublist|apply sublist_filter].
  - rewrite clean_rows. apply unseen_NoDup.
  - apply Forall_forall. intros r Hr. by apply elem_of_clean in Hr as [_ ?].
  - apply elem_of_clean.
Qed.

(** X2: the two removals of the cleaner commute: removing the duplicates
    first and the all-missing rows afterwards gives the same table. *)
Theorem cleaner_removals_commute (t : DataFrame) :
  pd.dropna_all (pd.drop_duplicates t) = clean t.
Proof.
  unfold clean, pd.dropna_all, pd.drop_duplicates. simpl. f_equal.
  by apply unseen_filter.
Qed.

(** ** Well-formed tables stay well-formed *)

Lemma take_mask_length {A B} (mask : list bool) (l1 : list A) (l2 : list B) :
  length l1 = length mask → length l2 = length mask →
  length (pd.take_mask mask l1) = length (pd.take_mask mask l2).
Proof.
  revert l1 l2. induction mask as [|b mask IH]; intros l1 l2 H1 H2.
  - by destruct l1, l2.
  - destruct l1 as [|x l1], l2 as [|y l2]; try done.
    simpl in *. destruct b; simpl; [f_equal|]; apply IH; lia.
Qed.

Lemma wf_clean t : wf_frame t → wf_frame (clean t).
Proof.
  intros [Hnd Hrect]. split; [done|].
  rewrite clean_columns. rewrite Forall_forall in *.
  intros r Hr. apply Hrect. by apply elem_of_clean in Hr as [? _].
Qed.

Lemma wf_drop t labels : wf_frame t → wf_frame (pd.drop t labels).
Proof.
  intros [Hnd Hrect]. split.
  - rewrite drop_columns. by apply NoDup_filter.
  - unfold pd.drop. simpl. apply Forall_fmap.
    eapply Forall_impl; [exact Hrect|]. intros r Hr. simpl.
    apply take_mask_length; [by rewrite length_fmap|by rewrite length_fmap].
Qed.

Lemma wf_select_features t : wf_frame t → wf_frame (select_features t).
Proof.
  intros Hwf. unfold select_features.
  destruct (cols_to_drop t); [done|by apply wf_drop].
Qed.

(** X3: the cleaner and the feature selector keep a table well-formed
    (distinct labels, one cell per column in every row), so the table the
    splitter gets from a well-formed input is well-formed. *)
Theorem stages_keep_tables_well_formed (t : DataFrame) :
  wf_frame t →
  wf_frame (clean t) ∧ wf_frame (select_features t) ∧
  wf_frame (select_features (clean t)).
Proof.
  intros Hwf. split_and!.
  - by apply wf_clean.
  - by apply wf_select_features.
  - by apply wf_select_features, wf_clean.
Qed.

(** ** Further facts about the feature selector *)

Lemma select_features_fixed t : cols_to_drop t = [] → select_features t = t.
Proof. intros H. unfold select_features. by rewrite H. Qed.

Lemma cols_to_drop_select_features t : cols_to_drop (select_features t) = [].
Proof.
  unfold cols_to_drop at 1. apply filter_Forall_nil, Forall_forall.
  intros c Hc. pose proof Hc as Hkept.
  rewrite select_features_columns, list_elem_of_filter in Hkept.
  rewrite select_features_getitem, select_features_len by done.
  by destruct Hkept.
Qed.

(** X4: a column is removed exactly when it is identifier-like in the
    input table: none of its values repeats and none is missing. *)
Theorem selector_removes_exactly_the_unique_columns (t : DataFrame) (c : string) :
  c ∈ columns t →
  (c ∈ cols_to_drop t ↔ all_unique (pd.getitem t c)) ∧
  (c ∉ columns (select_features t) ↔ all_unique (pd.getitem t c)).
Proof.
  intros Hc. unfold all_unique.
  rewrite <- nunique_full, getitem_length, elem_of_cols_to_drop.
  rewrite select_features_columns, list_elem_of_filter.
  split; [ptauto|]. split.
  - intros Hn. destruct (decide (pd.nunique (pd.getitem t c) = pd.len t)); ptauto.
  - intros Heq [Hne _]. done.
Qed.

(** X5: the feature selector never touches the rows' number, and running
    it on its own output removes nothing more. *)
Theorem selector_is_idempotent (t : DataFrame) :
  pd.len (select_features t) = pd.len t ∧
  cols_to_drop (select_features t) = [] ∧
  select_features (select_features t) = select_features t.
Proof.
  split_and!.
  - apply select_features_len.
  - apply cols_to_drop_select_features.
  - apply select_features_fixed, cols_to_drop_select_features.
Qed.

(** ** The ways a run can end *)

Lemma initial_context_file_path p od :
  initial_context p od !! "file_path" = Some (VStr p).
Proof.
  unfold initial_context. rewrite lookup_insert_ne by done. apply lookup_insert_eq.
Qed.

Lemma loader_unreadable next p st :
  context st !! "file_path" = Some (VStr p) → read_csv p = None →
  DataLoaderHandler_handle next None st = (Exit 1, st).
Proof.
  intros Hp Hr.
  unfold DataLoaderHandler_handle, bind, try_except, ctx_getitem, pd_read_csv.
  by rewrite Hp, Hr.
Qed.

Lemma loader_no_path next st :
  context st !! "file_path" = None →
  DataLoaderHandler_handle next None st = (Exit 1, st).
Proof.
  intros Hp.
  unfold DataLoaderHandler_handle, bind, try_except, ctx_getitem.
  by rewrite Hp.
Qed.

Lemma process_ok d st p od fs :
  loader None {| context := initial_context p od; files := fs |} = (Ok d, st) →
  process p od fs = (Ok tt, st).
Proof. intros H. unfold process, try_except, bind. by rewrite H. Qed.

Lemma last_of_two {A} (l : list A) : 2 ≤ length l → is_Some (last l).
Proof.
  intros Hlen. destruct (last l) eqn:Hlast; [by eexists|].
  apply last_None in Hlast. subst l. simpl in Hlen. lia.
Qed.

(** A run ends in one of five ways, decided by the outside world and the
    table read. *)
Lemma process_cases p od fs :
  (read_csv p = None ∧
   process p od fs
   = (Exit 1, {| context := initial_context p od; files := fs |})) ∨
  (∃ t, read_csv p = Some t ∧
        length (columns (select_features (clean t))) < 2 ∧
        process p od fs = (Exit 1, before_split p od fs t)) ∨
  (∃ t target,
     read_csv p = Some t ∧
     2 ≤ length (columns (select_features (clean t))) ∧
     last (columns (select_features (clean t))) = Some target ∧
     ((save_ok fs (od +:+ "/x_data.npy") (run_X t target) = false ∧
       process p od fs = (Exit 1, before_save p od fs t target)) ∨
      (save_ok fs (od +:+ "/x_data.npy") (run_X t target) = true ∧
       save_ok (<[od +:+ "/x_data.npy" := run_X t target]> fs)
         (od +:+ "/y_data.npy") (run_y t target) = false ∧
       process p od fs
       = (Exit 1, written (od +:+ "/x_data.npy") (run_X t target)
                    (before_save p od fs t target))) ∨
      (save_ok fs (od +:+ "/x_data.npy") (run_X t target) = true ∧
       save_ok (<[od +:+ "/x_data.npy" := run_X t target]> fs)
         (od +:+ "/y_data.npy") (run_y t target) = true ∧
       process p od fs = (Ok tt, after_save p od fs t target)))).
Proof.
  destruct (read_csv p) as [t|] eqn:Hread.
  2:{ left. split; [done|]. apply process_exit. unfold loader.
      cbn [stage_handle]. apply (loader_unreadable _ p); [|done].
      apply initial_context_file_path. }
  right.
  destruct (decide (length (columns (select_features (clean t))) < 2)) as [Hlt|Hge].
  { left. exists t. split_and!; [done..|]. apply (process_raise _ ValueError).
    rewrite (run_to_splitter p od fs t Hread). by apply splitter_raises. }
  right. assert (2 ≤ length (columns (select_features (clean t)))) as Hlen by lia.
  destruct (last_of_two _ Hlen) as [target Hlast].
  exists t, target. split_and!; [done..|].
  pose proof (run_to_saver p od fs t target Hread Hlen Hlast) as Hrun.
  destruct (before_save_lookups p od fs t target) as (HX & Hy & Hxp & Hyp & Hfs).
  destruct (save_ok fs (od +:+ "/x_data.npy") (run_X t target)) eqn:Hsx.
  - destruct (save_ok (<[od +:+ "/x_data.npy" := run_X t target]> fs)
                (od +:+ "/y_data.npy") (run_y t target)) eqn:Hsy.
    + right. right. split_and!; [done..|].
      rewrite (saver_run _ _ _ _ _ HX Hy) in Hrun
        by (by rewrite ?Hxp, ?Hyp, Hfs).
      rewrite Hxp, Hyp in Hrun. by apply (process_ok _ _ _ _ _ Hrun).
    + right. left. split_and!; [done..|].
      rewrite (saver_fails_second _ _ _ _ _ HX Hy) in Hrun
        by (by rewrite ?Hxp, ?Hyp, Hfs).
      rewrite Hxp in Hrun. by apply process_exit.
  - left. split; [done|].
    rewrite (saver_fails_first _ _ _ _ HX) in Hrun by (by rewrite Hxp, Hfs).
    by apply process_exit.
Qed.

Lemma output_paths_differ (od : string) :
  od +:+ "/x_data.npy" ≠ od +:+ "/y_data.npy".
Proof. intros H. by apply String.app_inj in H. Qed.

Lemma process_outcome p od fs :
  (process p od fs).1 = Ok tt ∨ (process p od fs).1 = Exit 1.
Proof.
  destruct (process_cases p od fs)
    as [[_ ->]|[(t & _ & _ & ->)|(t & target & _ & _ & _ & H)]];
    [by right..|].
  destruct H as [[_ ->]|[(_ & _ & ->)|(_ & _ & ->)]]; [by right..|by left].
Qed.

Lemma process_files_frame p od fs k :
  k ≠ od +:+ "/x_data.npy" → k ≠ od +:+ "/y_data.npy" →
  files (process p od fs).2 !! k = fs !! k.
Proof.
  intros Hx Hy.
  destruct (process_cases p od fs)
    as [[_ ->]|[(t & _ & _ & ->)|(t & target & _ & _ & _ & H)]]; [done..|].
  destruct H as [[_ ->]|[(_ & _ & ->)|(_ & _ & ->)]]; [done|..].
  - unfold written. simpl. by rewrite lookup_insert_ne.
  - unfold after_save, written. simpl. by rewrite !lookup_insert_ne.
Qed.

Lemma process_files_dom p od fs :
  dom fs ⊆ dom (files (process p od fs).2).
Proof.
  destruct (process_cases p od fs)
    as [[_ ->]|[(t & _ & _ & ->)|(t & target & _ & _ & _ & H)]]; [done..|].
  destruct H as [[_ ->]|[(_ & _ & ->)|(_ & _ & ->)]]; [done|..].
  - unfold written. simpl. rewrite dom_insert_L. apply union_subseteq_r.
  - unfold after_save, written. simpl. rewrite !dom_insert_L.
    etrans; [|apply union_subseteq_r]. apply union_subseteq_r.
Qed.

(** X6: no exception ever leaves [process]: a run returns normally or ends
    through [sys.exit(1)], so its status is 0 or 1. *)
Theorem run_never_raises (p od : string) (fs : gmap string value) :
  ((process p od fs).1 = Ok tt ∨ (process p od fs).1 = Exit 1) ∧
  (∀ e, (process p od fs).1 ≠ Raise e) ∧
  (exit_status (process p od fs).1 = 0%Z ∨ exit_status (process p od fs).1 = 1%Z).
Proof.
  destruct (process_outcome p od fs) as [H|H]; rewrite H.
  - split_and!; [by left|done|by left].
  - split_and!; [by right|done|by right].
Qed.

(** X7: a run ends with status 0 exactly when the file is read, at least
    two columns are left after cleaning and feature selection, and both
    writes succeed. *)
Theorem run_succeeds_exactly_when (p od : string) (fs : gmap string value) :
  exit_status (process p od fs).1 = 0%Z ↔
  ∃ t target,
    read_csv p = Some t ∧
    2 ≤ length (columns (select_features (clean t))) ∧
    last (columns (select_features (clean t))) = Some target ∧
    save_ok fs (od +:+ "/x_data.npy") (run_X t target) = true ∧
    save_ok (<[od +:+ "/x_data.npy" := run_X t target]> fs)
      (od +:+ "/y_data.npy") (run_y t target) = true.
Proof.
  destruct (process_cases p od fs)
    as [[Hr Hp]|[(t & Hr & Hlt & Hp)|(t & target & Hr & Hlen & Hlast & H)]].
  - rewrite Hp. split; [done|]. intros (t & target & Hr' & _). congruence.
  - rewrite Hp. split; [done|]. intros (t' & target & Hr' & Hlen & _).
    assert (t' = t) as -> by congruence. lia.
  - destruct H as [[Hsx Hp]|[(Hsx & Hsy & Hp)|(Hsx & Hsy & Hp)]]; rewrite Hp.
    + split; [done|]. intros (t' & target' & Hr' & _ & Hlast' & Hsx' & _).
      assert (t' = t) as -> by congruence.
      assert (target' = target) as -> by congruence. congruence.
    + split; [done|]. intros (t' & target' & Hr' & _ & Hlast' & _ & Hsy').
      assert (t' = t) as -> by congruence.
      assert (target' = target) as -> by congruence. congruence.
    + split; [|done]. intros _. by exists t, target.
Qed.

(** X8: whatever way a run ends, it removes no file and changes no file
    other than the two it writes, [x_data.npy] and [y_data.npy] in the
    output directory. *)
Theorem run_touches_only_its_two_files (p od : string) (fs : gmap string value) :
  dom fs ⊆ dom (files (process p od fs).2) ∧
  ∀ k, k ≠ od +:+ "/x_data.npy" → k ≠ od +:+ "/y_data.npy" →
       files (process p od fs).2 !! k = fs !! k.
Proof.
  split; [apply process_files_dom|]. intros k. apply process_files_frame.
Qed.

(** X9: a file that cannot be read ends the run in the loader with status
    1: no later stage runs, the context is the one the run started with (no
    shape was recorded) and no file is written. *)
Theorem unreadable_input_aborts_the_run (p od : string) (fs : gmap string value) :
  read_csv p = None →
  (∀ next st, context st !! "file_path" = Some (VStr p) →
     DataLoaderHandler_handle next None st = (Exit 1, st)) ∧
  process p od fs = (Exit 1, {| context := initial_context p od; files := fs |}) ∧
  context (process p od fs).2 !! "original_shape" = None.
Proof.
  intros Hr.
  assert (process p od fs
          = (Exit 1, {| context := initial_context p od; files := fs |})) as Hp.
  { apply process_exit. unfold loader. cbn [stage_handle].
    apply (loader_unreadable _ p); [apply initial_context_file_path|done]. }
  rewrite Hp. split_and!; [|done..].
  intros next st Hst. by apply (loader_unreadable _ p).
Qed.

(** X10: the loader reads only when it is given no table.  Without a
    [file_path] entry it then leaves through [sys.exit(1)] without calling
    the next handler; given a table it hands that table and the context on
    untouched, whatever the context holds. *)
Theorem loader_reads_only_without_a_table
    (next : option handler) (t : DataFrame) (st : state) :
  (context st !! "file_path" = None →
   DataLoaderHandler_handle next None st = (Exit 1, st)) ∧
  DataLoaderHandler_handle next (Some t) st = DataHandler_handle next (Some t) st.
Proof. split; [apply loader_no_path|done]. Qed.

(** ** The saver on its own *)

Lemma saver_paths_differ (ctx : gmap string value) : x_path ctx ≠ y_path ctx.
Proof. unfold x_path, y_path. intros H. by apply String.app_inj in H. Qed.

Lemma saver_no_X next data st :
  context st !! "X_data" = None →
  SaveNumpyHandler_handle next data st = (Exit 1, st).
Proof.
  intros HX.
  unfold SaveNumpyHandler_handle, bind, try_except, ctx_get, ctx_getitem.
  by rewrite HX.
Qed.

Lemma saver_no_y next data st X :
  context st !! "X_data" = Some X → context st !! "y_data" = None →
  save_ok (files st) (x_path (context st)) X = true →
  SaveNumpyHandler_handle next data st
  = (Exit 1, written (x_path (context st)) X st).
Proof.
  intros HX Hy Hsx.
  unfold SaveNumpyHandler_handle, bind, try_except, ctx_get, ctx_getitem, np_save.
  fold (x_path (context st)).
  rewrite HX, Hsx. cbn [written context files]. by rewrite Hy.
Qed.

(** X11: a saver that finds no feature matrix in the context exits with
    status 1 and writes nothing; one that finds the matrix but no target
    vector has already written the matrix file when it exits. *)
Theorem saver_without_arrays_exits
    (next : option handler) (data : option DataFrame) (st : state) :
  (context st !! "X_data" = None →
   SaveNumpyHandler_handle next data st = (Exit 1, st)) ∧
  (∀ X, context st !! "X_data" = Some X → context st !! "y_data" = None →
        save_ok (files st) (x_path (context st)) X = true →
        SaveNumpyHandler_handle next data st
        = (Exit 1, written (x_path (context st)) X st) ∧
        files (written (x_path (context st)) X st) !! x_path (context st)
        = Some X).
Proof.
  split; [apply saver_no_X|]. intros X HX Hy Hsx.
  split; [by apply saver_no_y|]. apply lookup_insert_eq.
Qed.

(** X12: when both writes succeed the saver hands its table on as it got
    it (a missing table too) with the context unchanged; the two arrays can
    be read back from two different paths, which lie in the current
    directory when the context names no output directory; no other file
    changes. *)
Theorem saver_writes_both_arrays
    (next : option handler) (data : option DataFrame) (st : state) (X y : value) :
  context st !! "X_data" = Some X → context st !! "y_data" = Some y →
  save_ok (files st) (x_path (context st)) X = true →
  save_ok (<[x_path (context st) := X]> (files st)) (y_path (context st)) y = true →
  ∃ st',
    SaveNumpyHandler_handle next data st = DataHandler_handle next data st' ∧
    context st' = context st ∧
    files st' !! x_path (context st) = Some X ∧
    files st' !! y_path (context st) = Some y ∧
    x_path (context st) ≠ y_path (context st) ∧
    (∀ k, k ≠ x_path (context st) → k ≠ y_path (context st) →
          files st' !! k = files st !! k) ∧
    (context st !! "output_dir" = None →
     x_path (context st) = "./x_data.npy" ∧ y_path (context st) = "./y_data.npy").
Proof.
  intros HX Hy Hsx Hsy.
  exists (written (y_path (context st)) y (written (x_path (context st)) X st)).
  pose proof (saver_paths_differ (context st)) as Hne.
  split_and!; [by apply saver_run|done|..|done| |].
  - unfold written. simpl. rewrite lookup_insert_ne by done. apply lookup_insert_eq.
  - unfold written. simpl. apply lookup_insert_eq.
  - intros k Hkx Hky. unfold written. simpl. by rewrite !lookup_insert_ne.
  - intros Hod. unfold x_path, y_path. by rewrite Hod.
Qed.

(** ** A successful run *)

Lemma after_save_context p od fs t target :
  context (after_save p od fs t target)
  = <["target_column" := VStr target]>
      (<["y_data" := run_y t target]>
        (<["X_data" := run_X t target]>
          (<["selected_features" := VLabels (columns (select_features (clean t)))]>
            (<["cleaned_shape" := VShape (pd.shape (clean t))]>
              (<["original_shape" := VShape (pd.shape t)]>
                (initial_context p od)))))).
Proof. done. Qed.

Lemma process_success p od fs t target :
  read_csv p = Some t →
  2 ≤ length (columns (select_features (clean t))) →
  last (columns (select_features (clean t))) = Some target →
  save_ok fs (od +:+ "/x_data.npy") (run_X t target) = true →
  save_ok (<[od +:+ "/x_data.npy" := run_X t target]> fs)
    (od +:+ "/y_data.npy") (run_y t target) = true →
  process p od fs = (Ok tt, after_save p od fs t target).
Proof.
  intros Hr Hlen Hlast Hsx Hsy.
  destruct (process_cases p od fs)
    as [[Hr' _]|[(t' & Hr' & Hlt & _)|(t' & target' & Hr' & _ & Hlast' & H)]].
  - congruence.
  - assert (t' = t) as -> by congruence. lia.
  - assert (t' = t) as -> by congruence.
    assert (target' = target) as -> by congruence.
    destruct H as [[Hsx' _]|[(_ & Hsy' & _)|(_ & _ & Hp)]]; congruence.
Qed.

(** X13: a run in which everything succeeds returns normally; afterwards
    the two files hold the feature matrix and the target vector, every
    other file is as before, and the context holds exactly the eight
    entries the stages and [process] wrote. *)
Theorem successful_run_result
    (p od : string) (fs : gmap string value) (t : DataFrame) (target : string) :
  read_csv p = Some t →
  2 ≤ length (columns (select_features (clean t))) →
  last (columns (select_features (clean t))) = Some target →
  save_ok fs (od +:+ "/x_data.npy") (run_X t target) = true →
  save_ok (<[od +:+ "/x_data.npy" := run_X t target]> fs)
    (od +:+ "/y_data.npy") (run_y t target) = true →
  (process p od fs).1 = Ok tt ∧
  files (process p od fs).2
  = <[od +:+ "/y_data.npy" := run_y t target]>
      (<[od +:+ "/x_data.npy" := run_X t target]> fs) ∧
  files (process p od fs).2 !! (od +:+ "/x_data.npy") = Some (run_X t target) ∧
  files (process p od fs).2 !! (od +:+ "/y_data.npy") = Some (run_y t target) ∧
  dom (context (process p od fs).2)
  = ({["file_path"; "output_dir"; "original_shape"; "cleaned_shape";
       "selected_features"; "X_data"; "y_data"; "target_column"]} : gset string) ∧
  context (process p od fs).2 !! "X_data" = Some (run_X t target) ∧
  context (process p od fs).2 !! "y_data" = Some (run_y t target).
Proof.
  intros Hr Hlen Hlast Hsx Hsy.
  rewrite (process_success p od fs t target Hr Hlen Hlast Hsx Hsy).
  cbn [fst snd]. pose proof (output_paths_differ od) as Hne.
  split_and!; [done|done|..].
  - unfold after_save, written. simpl.
    rewrite lookup_insert_ne by done. apply lookup_insert_eq.
  - unfold after_save, written. simpl. apply lookup_insert_eq.
  - rewrite after_save_context. unfold initial_context.
    rewrite !dom_insert_L, dom_empty_L. forget_world. set_solver.
  - rewrite after_save_context.
    rewrite !lookup_insert_ne by done. apply lookup_insert_eq.
  - rewrite after_save_context.
    rewrite lookup_insert_ne by done. apply lookup_insert_eq.
Qed.

(** X14: after a successful run on a well-formed table the entries of the
    context fit together: the cleaned shape has the original column count
    and no more rows than the original, the selected features are a
    subsequence of the header ending with the recorded target column, the
    feature matrix has the cleaned row count and one column less than there
    are selected features, and the target vector has one entry per cleaned
    row. *)
Theorem recorded_metadata_is_consistent
    (p od : string) (fs : gmap string value) (t : DataFrame) (target : string) :
  read_csv p = Some t → wf_frame t →
  2 ≤ length (columns (select_features (clean t))) →
  last (columns (select_features (clean t))) = Some target →
  save_ok fs (od +:+ "/x_data.npy") (run_X t target) = true →
  save_ok (<[od +:+ "/x_data.npy" := run_X t target]> fs)
    (od +:+ "/y_data.npy") (run_y t target) = true →
  ∃ n feats X y,
    context (process p od fs).2 !! "original_shape"
      = Some (VShape (pd.len t, length (columns t))) ∧
    context (process p od fs).2 !! "cleaned_shape"
      = Some (VShape (n, length (columns t))) ∧
    n ≤ pd.len t ∧
    context (process p od fs).2 !! "selected_features" = Some (VLabels feats) ∧
    feats `sublist_of` columns t ∧
    last feats = Some target ∧
    context (process p od fs).2 !! "target_column" = Some (VStr target) ∧
    context (process p od fs).2 !! "X_data" = Some (VMatrix X) ∧
    nd_shape X = (n, length feats - 1) ∧
    length (nd_data X) = n ∧
    context (process p od fs).2 !! "y_data" = Some (VVector y) ∧
    length y = n.
Proof.
  intros Hr Hwf Hlen Hlast Hsx Hsy.
  rewrite (process_success p od fs t target Hr Hlen Hlast Hsx Hsy).
  cbn [snd]. rewrite after_save_context.
  assert (wf_frame (select_features (clean t))) as Hwf'
    by (by apply wf_select_features, wf_clean).
  destruct (split_wf _ Hwf' Hlen) as (target' & Hlast' & Hdrop & _).
  assert (target' = target) as -> by congruence.
  exists (pd.len (clean t)), (columns (select_features (clean t))),
    (pd.values (pd.drop (select_features (clean t)) [target])),
    (pd.getitem (select_features (clean t)) target).
  split_and!.
  - rewrite !lookup_insert_ne by done. apply lookup_insert_eq.
  - rewrite !lookup_insert_ne by done. apply lookup_insert_eq.
  - apply clean_length.
  - rewrite !lookup_insert_ne by done. apply lookup_insert_eq.
  - rewrite select_features_columns, <- (clean_columns t). apply sublist_filter.
  - done.
  - apply lookup_insert_eq.
  - rewrite !lookup_insert_ne by done. apply lookup_insert_eq.
  - rewrite Hdrop. unfold pd.values, pd.shape. simpl.
    rewrite length_fmap, length_take_le by lia.
    by rewrite <- (select_features_len (clean t)).
  - rewrite values_length, drop_len. apply select_features_len.
  - rewrite lookup_insert_ne by done. apply lookup_insert_eq.
  - rewrite getitem_length. apply select_features_len.
Qed.

(** ** Tables all of whose columns are identifier-like *)

Lemma get_loc_lt c cols : c ∈ cols → pd.get_loc c cols < length cols.
Proof.
  induction cols as [|c' cols IH]; intros Hc; [by apply elem_of_nil in Hc|].
  simpl. destruct (decide (c' = c)); [lia|].
  apply elem_of_cons in Hc as [?|Hc]; [congruence|]. apply IH in Hc. lia.
Qed.

Lemma one_row_selects_nothing t r :
  rows t = [r] → length r = length (columns t) → NaN ∉ r →
  columns (select_features t) = [].
Proof.
  intros Hrows Hlen Hna.
  rewrite select_features_columns. apply filter_Forall_nil, Forall_forall.
  intros c Hc Hne. apply Hne.
  rewrite <- (getitem_length t c). apply nunique_full.
  unfold pd.getitem, pd.icol. rewrite Hrows. simpl.
  destruct (lookup_lt_is_Some_2 r (pd.get_loc c (columns t))) as [v Hv].
  { rewrite Hlen. by apply get_loc_lt. }
  rewrite Hv. simpl. split.
  - apply NoDup_singleton.
  - intros Heq%list_elem_of_singleton. apply Hna. rewrite Heq.
    by eapply list_elem_of_lookup_2.
Qed.

(** X15: a well-formed table that is left with a single row after
    cleaning, none of whose cells is missing, loses every column in the
    feature selector (one distinct value, one row); the splitter then
    raises and the run ends with status 1 without writing a file. *)
Theorem one_row_table_is_rejected
    (p od : string) (fs : gmap string value) (t : DataFrame) (r : row) :
  read_csv p = Some t → wf_frame t → rows (clean t) = [r] → NaN ∉ r →
  columns (select_features (clean t)) = [] ∧
  process p od fs = (Exit 1, before_split p od fs t) ∧
  files (process p od fs).2 = fs.
Proof.
  intros Hr Hwf Hrows Hna.
  assert (columns (select_features (clean t)) = []) as Hnil.
  { apply (one_row_selects_nothing (clean t) r Hrows); [|done].
    destruct (wf_clean t Hwf) as [_ Hrect]. rewrite Hrows in Hrect.
    exact (Forall_inv Hrect). }
  assert (process p od fs = (Exit 1, before_split p od fs t)) as Hp.
  { apply (process_raise _ ValueError).
    rewrite (run_to_splitter p od fs t Hr). apply splitter_raises.
    rewrite Hnil. simpl. lia. }
  by rewrite Hp.
Qed.

(** ** The entry point *)

Lemma process_keeps_output_dir p od fs :
  context (process p od fs).2 !! "output_dir" = Some (VStr od) ∧
  context (process p od fs).2 !! "file_path" = Some (VStr p).
Proof.
  assert (initial_context p od !! "output_dir" = Some (VStr od)) as Hod
    by apply lookup_insert_eq.
  pose proof (initial_context_file_path p od) as Hfp.
  assert (∀ t,
            context (before_split p od fs t) !! "output_dir" = Some (VStr od)
            ∧ context (before_split p od fs t) !! "file_path" = Some (VStr p))
    as Hsplit.
  { intros t. unfold before_split, store. simpl.
    by rewrite !lookup_insert_ne by done. }
  assert (∀ t target,
            context (before_save p od fs t target) !! "output_dir" = Some (VStr od)
            ∧ context (before_save p od fs t target) !! "file_path"
              = Some (VStr p)) as Hsave.
  { intros t target. unfold before_save, store. simpl.
    rewrite !lookup_insert_ne by done. apply (Hsplit t). }
  destruct (process_cases p od fs)
    as [[_ ->]|[(t & _ & _ & ->)|(t & target & _ & _ & _ & H)]].
  - done.
  - apply Hsplit.
  - destruct H as [[_ ->]|[(_ & _ & ->)|(_ & _ & ->)]]; apply Hsave.
Qed.

(** X16: [main] runs the pipeline on the given path with the current
    directory as output directory: it ends with status 0 or 1, the only
    files it can change are [./x_data.npy] and [./y_data.npy], and the
    context it leaves still names the given path and ["."]. *)
Theorem main_writes_to_the_current_directory
    (file_path : string) (fs : gmap string value) :
  ((main file_path fs).1 = Ok tt ∨ (main file_path fs).1 = Exit 1) ∧
  (∀ k, k ≠ "./x_data.npy" → k ≠ "./y_data.npy" →
        files (main file_path fs).2 !! k = fs !! k) ∧
  context (main file_path fs).2 !! "output_dir" = Some (VStr ".") ∧
  context (main file_path fs).2 !! "file_path" = Some (VStr file_path).
Proof.
  unfold main. split_and!.
  - apply process_outcome.
  - intros k. apply (process_files_frame file_path "." fs k).
  - apply process_keeps_output_dir.
  - apply process_keeps_output_dir.
Qed.

(** ** What the split keeps *)



(** X18: the column the splitter takes as target has survived the feature
    selector, so it is never identifier-like: it holds a repeated or a
    missing value, the same values as in the selector's input; when the
    last column of that input is identifier-like, another column becomes
    the target. *)
Theorem target_is_never_identifier_like (t : DataFrame) (target : string) :
  last (columns (select_features t)) = Some target →
  target ∈ columns t ∧
  pd.getitem (select_features t) target = pd.getitem t target ∧
  ¬ all_unique (pd.getitem t target) ∧
  (∀ c, last (columns t) = Some c → all_unique (pd.getitem t c) → target ≠ c).
Proof.
  intros Hlast.
  assert (target ∈ columns (select_features t)) as Hin.
  { apply last_Some in Hlast as [l ->]. apply elem_of_app. right. left. }
  pose proof Hin as Hkept.
  rewrite select_features_columns, list_elem_of_filter in Hkept.
  destruct Hkept as [Hne Hc].
  assert (¬ all_unique (pd.getitem t target)) as Hnu.
  { unfold all_unique. rewrite <- nunique_full, getitem_length. done. }
  split_and!; [done|by apply select_features_getitem|done|].
  intros c _ Hu ->. by apply Hnu.
Qed.

End Pipeline.


(** ** The model at work on the sample inputs *)

Example dropna_all_ex :
  pd.dropna_all (mkFrame ["a"; "b"] [[NaN; NaN]; [Num 1; NaN]; [NaN; NaN]])
  = mkFrame ["a"; "b"] [[Num 1; NaN]].
Proof. reflexivity. Qed.

Example drop_duplicates_ex :
  pd.drop_duplicates
    (mkFrame ["a"] [[Num 1]; [Num 2]; [Num 1]; [NaN]; [Num 2]; [NaN]])
  = mkFrame ["a"] [[Num 1]; [Num 2]; [NaN]].
Proof. reflexivity. Qed.

Example nunique_ex : pd.nunique [Num 1; NaN; Num 1; Text "x"; NaN] = 2.
Proof. reflexivity. Qed.

Example drop_ex :
  pd.drop (mkFrame ["a"; "b"; "c"] [[Num 1; Num 2; Num 3]; [Num 4; Num 5; Num 6]])
          ["b"]
  = mkFrame ["a"; "c"] [[Num 1; Num 3]; [Num 4; Num 6]].
Proof. reflexivity. Qed.

Example clean_dirty_ex :
  clean dirty_frame
  = mkFrame ["A"; "B"] [[Num 1; NaN]; [Num 2; Text "x"]; [Num 3; Text "x"]].
Proof. reflexivity. Qed.

Example select_sample_ex :
  cols_to_drop sample_frame = ["A"] ∧
  columns (select_features sample_frame) = ["B"; "C"].
Proof. by vm_compute. Qed.

(** The whole run on the sample table when every write succeeds: status 0,
    a five by one feature matrix and a target vector of length five. *)
Example process_sample_ex :
  let r := process sample_read_csv (λ _ _ _, true) sample_repr "data.csv" "out" ∅ in
  exit_status r.1 = 0%Z ∧
  files r.2 !! "out/x_data.npy"
    = Some (VMatrix (mkArray (5, 1)
              [[Text "x"]; [Text "x"]; [Text "y"]; [Text "z"]; [Text "w"]])) ∧
  files r.2 !! "out/y_data.npy"
    = Some (VVector [Num 10; Num 20; Num 10; NaN; Num 30]) ∧
  context r.2 !! "target_column" = Some (VStr "C") ∧
  context r.2 !! "selected_features" = Some (VLabels ["B"; "C"]) ∧
  context r.2 !! "original_shape" = Some (VShape (5, 3)).
Proof. by vm_compute. Qed.

(** Doubles carry 53 bits: the nearest double is taken, ties to even. *)
Example to_float64_ex :
  pd.to_float64 9007199254740993 = 9007199254740992%Z ∧
  pd.to_float64 9007199254740995 = 9007199254740996%Z ∧
  pd.to_float64 (-9007199254740993) = (-9007199254740992)%Z ∧
  pd.to_float64 9007199254740992 = 9007199254740992%Z ∧
  pd.to_float64 12345 = 12345%Z.
Proof. by vm_compute. Qed.

(** Whole numbers beside a column with a missing value become doubles in
    the feature matrix; beside a text column they stay as they are. *)
Example values_big_ex :
  pd.values (pd.drop big_frame ["C"])
  = mkArray (2, 2)
      [ [Num 9007199254740992; Num 1]; [Num 9007199254740992; NaN] ] ∧
  pd.values (mkFrame ["A"; "B"] [ [Num 9007199254740993; Text "x"] ])
  = mkArray (1, 2) [ [Num 9007199254740993; Text "x"] ] ∧
  pd.values (mkFrame ["A"; "B"] [ [Num 9007199254740993; Num 1] ])
  = mkArray (1, 2) [ [Num 9007199254740993; Num 1] ].
Proof. by vm_compute. Qed.

(** A path that cannot be read ends the run in the loader. *)
Example process_unreadable_ex :
  process sample_read_csv (λ _ _ _, true) sample_repr "missing.csv" "out" ∅
  = (Exit 1, {| context := initial_context "missing.csv" "out"; files := ∅ |}).
Proof. by vm_compute. Qed.

(** ** The claims at the sample inputs *)

Lemma sample_frame_wf : wf_frame sample_frame.
Proof. apply (bool_decide_unpack _). by vm_compute. Defined.


(** C2 at the two-column table whose first column is identifier-like. *)
Lemma narrow_table_aborts_the_run_witness :
  process sample_read_csv sample_save_ok sample_repr "narrow.csv" "." ∅
    = (Exit 1, before_split "narrow.csv" "." ∅ narrow_frame) ∧
  files (process sample_read_csv sample_save_ok sample_repr "narrow.csv" "." ∅).2 = ∅.
Proof.
  destruct (narrow_table_aborts_the_run sample_read_csv sample_save_ok sample_repr
              "narrow.csv" "." ∅ narrow_frame) as (_ & _ & Hp & Hf & _).
  - reflexivity.
  - vm_compute. lia.
  - split; [exact Hp | exact Hf].
Defined.

(** C5 at the sample table: column B repeats "x" in its first two rows. *)
Lemma selector_contract_witness :
  "B" ∈ columns (select_features sample_frame).
Proof.
  destruct (selector_contract sample_frame) as (_ & Hkeep & _).
  apply Hkeep.
  - vm_compute. right. left.
  - vm_compute. lia.
  - exists 0, 1, (Text "x"). split; [lia|]. split; reflexivity.
Defined.

(** C6 at a table with a header and no rows. *)
Lemma selector_drops_all_columns_of_empty_table_witness :
  columns (select_features (mkFrame ["A"; "B"; "C"] [])) = [].
Proof.
  destruct (selector_drops_all_columns_of_empty_table None
              (mkFrame ["A"; "B"; "C"] []) (mkState ∅ ∅)) as (_ & _ & H & _).
  - reflexivity.
  - exact H.
Defined.

(** C7 at the pipeline cut after the cleaner: what the loader and the
    cleaner wrote survives the rest of the chain. *)
Lemma context_is_append_only_witness :
  context (DataHandler_handle
             (chain sample_read_csv sample_save_ok sample_repr
                [Selector; Splitter; Saver])
             (Some (clean sample_frame))
             (before_split "data.csv" "." ∅ sample_frame)).2 !! "cleaned_shape"
  = context (before_split "data.csv" "." ∅ sample_frame) !! "cleaned_shape".
Proof.
  destruct (context_is_append_only sample_read_csv sample_save_ok sample_repr)
    as (_ & _ & _ & _ & H).
  apply (H [Loader; Cleaner] [Selector; Splitter; Saver] "cleaned_shape").
  - reflexivity.
  - left. vm_compute. right. left.
Defined.

(** C8 at the sample table. *)
Lemma stages_keep_column_order_witness :
  ∃ X st',
    SplitDataHandler_handle None (Some sample_frame) (mkState ∅ ∅)
      = DataHandler_handle None (Some sample_frame) st' ∧
    context st' !! "X_data" = Some (VMatrix X) ∧
    X = pd.values {| columns := take (length (columns sample_frame) - 1)
                                     (columns sample_frame);
                     rows := take (length (columns sample_frame) - 1)
                               <$> rows sample_frame |} ∧
    take (length (columns sample_frame) - 1) (columns sample_frame)
      `prefix_of` columns sample_frame.
Proof.
  destruct (stages_keep_column_order sample_read_csv sample_save_ok sample_repr
              None sample_frame (mkState ∅ ∅))
    as (_ & _ & _ & _ & _ & _ & _ & _ & H & _).
  apply H.
  - exact sample_frame_wf.
  - simpl. lia.
Defined.

(** C9 at the sample table when the target vector cannot be written. *)
Lemma failed_save_exits_and_keeps_files_witness :
  files (process sample_read_csv sample_save_ok sample_repr "data.csv" "." ∅).2
    !! "./x_data.npy" = Some (run_X sample_frame "C") ∧
  exit_status (process sample_read_csv sample_save_ok sample_repr "data.csv" "." ∅).1
    = 1%Z.
Proof.
  destruct (failed_save_exits_and_keeps_files sample_read_csv sample_save_ok
              sample_repr "data.csv" "." ∅ sample_frame "C")
    as (_ & _ & H).
  - reflexivity.
  - vm_compute. lia.
  - reflexivity.
  - destruct H as (_ & _ & Hx & He).
    + reflexivity.
    + reflexivity.
    + split; [exact Hx | exact He].
Defined.

(** C10 at the sample table: column C holds a missing value. *)
Lemma selector_keeps_columns_with_missing_witness :
  pd.nunique (pd.getitem sample_frame "C") < pd.len sample_frame ∧
  "C" ∈ columns (select_features sample_frame).
Proof.
  apply (selector_keeps_columns_with_missing sample_frame "C").
  - vm_compute. lia.
  - vm_compute. right. right. left.
  - vm_compute. right. right. right. left.
Defined.

(** C7 as stated fails at its first part: the context [process] creates
    is not empty, it holds the input path and the output directory. *)
Lemma context_not_created_empty :
  initial_context "data.csv" "." ≠ ∅ ∧
  initial_context "data.csv" "." !! "file_path" = Some (VStr "data.csv") ∧
  initial_context "data.csv" "." !! "output_dir" = Some (VStr ".").
Proof.
  split; [|by vm_compute].
  intros H. apply (f_equal (λ m, m !! "file_path")) in H.
  by vm_compute in H.
Qed.

(** ** The further properties at the sample inputs *)

(** X3 at the sample table. *)
Lemma stages_keep_tables_well_formed_witness :
  wf_frame (clean sample_frame) ∧ wf_frame (select_features sample_frame) ∧
  wf_frame (select_features (clean sample_frame)).
Proof.
  apply (stages_keep_tables_well_formed sample_frame). exact sample_frame_wf.
Defined.

(** X4 at the sample table: column A holds the identifiers 1 to 5. *)
Lemma selector_removes_exactly_the_unique_columns_witness :
  ("A" ∈ cols_to_drop sample_frame ↔ all_unique (pd.getitem sample_frame "A")) ∧
  ("A" ∉ columns (select_features sample_frame)
   ↔ all_unique (pd.getitem sample_frame "A")).
Proof.
  apply (selector_removes_exactly_the_unique_columns sample_frame "A").
  vm_compute. left.
Defined.

(** X9 at a path the sample world cannot read. *)
Lemma unreadable_input_aborts_the_run_witness :
  process sample_read_csv sample_save_ok sample_repr "missing.csv" "out" ∅
  = (Exit 1, {| context := initial_context "missing.csv" "out"; files := ∅ |}).
Proof.
  destruct (unreadable_input_aborts_the_run sample_read_csv sample_save_ok
              sample_repr "missing.csv" "out" ∅) as (_ & H & _).
  - reflexivity.
  - exact H.
Defined.

(** X12 at a state holding two small arrays and no output directory. *)
Lemma saver_writes_both_arrays_witness :
  ∃ st',
    SaveNumpyHandler_handle always_save_ok sample_repr None None
      (mkState (<["y_data" := VVector [Num 1]]>
                  (<["X_data" := VMatrix (mkArray (1, 1) [[Num 2]])]> ∅)) ∅)
    = (Ok None, st') ∧
    files st' !! "./x_data.npy" = Some (VMatrix (mkArray (1, 1) [[Num 2]])) ∧
    files st' !! "./y_data.npy" = Some (VVector [Num 1]).
Proof.
  destruct (saver_writes_both_arrays always_save_ok sample_repr None None
              (mkState (<["y_data" := VVector [Num 1]]>
                          (<["X_data" := VMatrix (mkArray (1, 1) [[Num 2]])]> ∅)) ∅)
              (VMatrix (mkArray (1, 1) [[Num 2]])) (VVector [Num 1]))
    as (st' & Hrun & _ & Hx & Hy & _).
  - reflexivity.
  - reflexivity.
  - reflexivity.
  - reflexivity.
  - exists st'. split; [exact Hrun|]. split; [exact Hx | exact Hy].
Defined.

(** X13 at the sample table when every write succeeds. *)
Lemma successful_run_result_witness :
  (process sample_read_csv always_save_ok sample_repr "data.csv" "out" ∅).1 = Ok tt ∧
  files (process sample_read_csv always_save_ok sample_repr "data.csv" "out" ∅).2
    !! "out/x_data.npy" = Some (run_X sample_frame "C") ∧
  files (process sample_read_csv always_save_ok sample_repr "data.csv" "out" ∅).2
    !! "out/y_data.npy" = Some (run_y sample_frame "C").
Proof.
  destruct (successful_run_result sample_read_csv always_save_ok sample_repr
              "data.csv" "out" ∅ sample_frame "C")
    as (Hok & _ & Hx & Hy & _).
  - reflexivity.
  - vm_compute. lia.
  - reflexivity.
  - reflexivity.
  - reflexivity.
  - split; [exact Hok|]. split; [exact Hx | exact Hy].
Defined.

(** X14 at the sample table when every write succeeds. *)
Lemma recorded_metadata_is_consistent_witness :
  ∃ n feats X y,
    context (process sample_read_csv always_save_ok sample_repr
               "data.csv" "out" ∅).2 !! "cleaned_shape" = Some (VShape (n, 3)) ∧
    context (process sample_read_csv always_save_ok sample_repr
               "data.csv" "out" ∅).2 !! "selected_features" = Some (VLabels feats) ∧
    context (process sample_read_csv always_save_ok sample_repr
               "data.csv" "out" ∅).2 !! "X_data" = Some (VMatrix X) ∧
    nd_shape X = (n, length feats - 1) ∧
    context (process sample_read_csv always_save_ok sample_repr
               "data.csv" "out" ∅).2 !! "y_data" = Some (VVector y) ∧
    length y = n.
Proof.
  destruct (recorded_metadata_is_consistent sample_read_csv always_save_ok
              sample_repr "data.csv" "out" ∅ sample_frame "C")
    as (n & feats & X & y & _ & Hc & _ & Hf & _ & _ & _ & HX & Hs & _ & Hy & Hl).
  - reflexivity.
  - exact sample_frame_wf.
  - vm_compute. lia.
  - reflexivity.
  - reflexivity.
  - reflexivity.
  - exists n, feats, X, y. split; [exact Hc|]. split; [exact Hf|].
    split; [exact HX|]. split; [exact Hs|]. split; [exact Hy | exact Hl].
Defined.

Lemma one_row_frame_wf : wf_frame one_row_frame.
Proof. apply (bool_decide_unpack _). by vm_compute. Defined.

(** X15 at a table with one complete row. *)
Lemma one_row_table_is_rejected_witness :
  columns (select_features (clean one_row_frame)) = [] ∧
  process one_row_read_csv always_save_ok sample_repr "one.csv" "out" ∅
  = (Exit 1, before_split "one.csv" "out" ∅ one_row_frame) ∧
  files (process one_row_read_csv always_save_ok sample_repr "one.csv" "out" ∅).2
  = ∅.
Proof.
  apply (one_row_table_is_rejected one_row_read_csv always_save_ok sample_repr
           "one.csv" "out" ∅ one_row_frame [Num 1; Text "x"; Num 2]).
  - reflexivity.
  - exact one_row_frame_wf.
  - reflexivity.
  - apply (bool_decide_unpack _). by vm_compute.
Defined.


(** X18 at a table whose last column is identifier-like: the target is
    column B. *)
Lemma target_is_never_identifier_like_witness :
  "B" ∈ columns unique_target_frame ∧
  pd.getitem (select_features unique_target_frame) "B"
  = pd.getitem unique_target_frame "B" ∧
  ¬ all_unique (pd.getitem unique_target_frame "B") ∧
  (∀ c, last (columns unique_target_frame) = Some c →
        all_unique (pd.getitem unique_target_frame c) → "B" ≠ c).
Proof.
  apply (target_is_never_identifier_like unique_target_frame "B").
  reflexivity.
Defined.
